(** * The API gateway dispatcher ([api-gateway/main.py])

    A shallow embedding of the [forward_request] middleware and of the
    Python string and dictionary operations it uses, with the routing,
    forwarding, relaying and failure-translation properties of the
    gateway proved about it. *)

From Stdlib Require Import ZArith Ascii.
From Stdlib.Strings Require Byte String.
From Stdlib.Numbers Require DecimalString DecimalPos DecimalZ.
From stdpp Require Import base option list strings gmap fin_maps.

Local Open Scope Z_scope.

(** ** Python [str] operations

    A [str] is modelled as a [string]: a sequence of characters with code
    points below 256.  The dispatcher inspects the character ["/"], and
    the letters when it lower-cases a content type. *)

Module Py.

(** [c in chars], for a character and the string of characters given to
    [strip]. *)
Fixpoint char_in (c : ascii) (chars : string) : bool :=
  match chars with
  | EmptyString => false
  | String x chars' => Ascii.eqb c x || char_in c chars'
  end.

(** [s.lstrip(chars)] *)
Fixpoint lstrip (chars s : string) : string :=
  match s with
  | EmptyString => EmptyString
  | String c s' => if char_in c chars then lstrip chars s' else s
  end.

(** [s.rstrip(chars)] *)
Fixpoint rstrip (chars s : string) : string :=
  match s with
  | EmptyString => EmptyString
  | String c s' =>
      match rstrip chars s' with
      | EmptyString => if char_in c chars then EmptyString else String c EmptyString
      | r => String c r
      end
  end.

(** [s.strip(chars)] *)
Definition strip (chars s : string) : string := rstrip chars (lstrip chars s).

(** [s.split(sep)] for a non-empty [sep]: the pieces between the
    occurrences of [sep], found left to right without overlap.  [skip]
    counts the characters of a matched separator still to be passed over,
    [cur] is the piece being read. *)
Fixpoint split_from (sep : string) (skip : nat) (cur s : string) : list string :=
  match s with
  | EmptyString => [cur]
  | String c s' =>
      match skip with
      | S n => split_from sep n cur s'
      | O =>
          if String.prefix sep s
          then cur :: split_from sep (Nat.pred (String.length sep)) EmptyString s'
          else split_from sep 0 (cur +:+ String c EmptyString) s'
      end
  end.

Definition split (sep s : string) : list string := split_from sep 0 EmptyString s.

(** [needle in hay] *)
Fixpoint contains (needle hay : string) : bool :=
  String.prefix needle hay ||
  match hay with
  | EmptyString => false
  | String _ hay' => contains needle hay'
  end.

(** [c.lower()] on one character.  Below 256 the capitals are [A] to [Z]
    and the code points 192 to 222 without the sign 215; the small letter
    of each stands 32 further. *)
Definition lower_char (c : ascii) : ascii :=
  let n := Ascii.N_of_ascii c in
  if ((65 <=? n) && (n <=? 90) || (192 <=? n) && (n <=? 222) && negb (n =? 215))%N
  then Ascii.ascii_of_N (n + 32) else c.

(** [s.lower()] *)
Fixpoint lower (s : string) : string :=
  match s with
  | EmptyString => EmptyString
  | String c s' => String (lower_char c) (lower s')
  end.

End Py.

(** ** Data crossing the dispatcher's boundary *)

(** [bytes]: a request or response body. *)
Definition bytes : Type := list Byte.byte.

(** A header mapping, as the dispatcher reads it: [dict(request.headers)],
    [dict(response.headers)], [response.headers.get(...)].  Both header
    classes are mappings keyed by the lower-cased header name, with one
    value for a name. *)
Abbreviation headers_dict := (gmap string string) (only parsing).

(** The inbound [starlette.requests.Request], with the attributes the
    dispatcher reads.  The request is one that has arrived whole: [body]
    is what [await request.body()] gives, and reading it is no call
    onward. *)
Module Request.
Record t : Type := make {
  method : string;                         (* request.method *)
  path : string;                           (* request.url.path *)
  headers : headers_dict;                  (* request.headers *)
  query_params : list (string * string);   (* request.query_params: the pairs of the query string *)
  body : bytes                             (* what await request.body() gives *)
}.
End Request.

(** [starlette.datastructures.QueryParams].  The object keeps the pairs of
    the query string in order, a key as often as it is written
    ([multi_items()]); read as a mapping it has one value for a key, the
    last one written. *)
Module QueryParams.

(** [d[k] = v] on a [dict] kept as its items in insertion order: a key
    that is there keeps its place and takes the new value. *)
Fixpoint setitem (k v : string) (d : list (string * string)) : list (string * string) :=
  match d with
  | [] => [(k, v)]
  | (k', v') :: d' =>
      if String.eqb k k' then (k', v) :: d' else (k', v') :: setitem k v d'
  end.

(** [q.items()]: the items of [{k: v for k, v in pairs}]. *)
Definition items (pairs : list (string * string)) : list (string * string) :=
  foldl (λ d kv, setitem kv.1 kv.2 d) [] pairs.

End QueryParams.

(** The keyword arguments of one [client.request(...)] call.  [params] is
    the object given as [params=]: the request's [QueryParams]. *)
Module Call.
Record t : Type := make {
  method : string;
  url : string;
  headers : headers_dict;
  params : list (string * string);
  content : bytes
}.
End Call.

(** The query of the request that [httpx] sends for a call.  The address
    carries none, and [httpx] reads a mapping given as [params=] through
    its [items()]: every key goes out once, with its last value. *)
Definition sent_query (call : Call.t) : list (string * string) :=
  QueryParams.items (Call.params call).

(** The backend's answer, an [httpx.Response].  [content] is
    [response.content]: the body as [httpx] hands it over, with the
    content encoding of the transfer undone. *)
Module Backend.
Record t : Type := make {
  status_code : Z;
  headers : headers_dict;
  content : bytes
}.
End Backend.

(** The response the dispatcher returns: the arguments given to
    [Response(...)] or [JSONResponse(...)], with the rendered body. *)
Module Response.
Record t : Type := make {
  body : bytes;
  status_code : Z;
  media_type : string;
  headers : headers_dict
}.
End Response.

(** The [json] codec used on the way back: [response.json()] decodes the
    backend's body and [JSONResponse] renders the decoded value again, with
    [json.dumps(..., allow_nan=False, ...).encode("utf-8")].  [loads]
    answers [None] where the decoder raises, [dumps] where the rendering
    raises: the decoder accepts values that cannot be rendered, such as a
    number that is not finite. *)
Class JsonCodec : Type := {
  json : Type;
  loads : bytes → option json;
  dumps : json → option bytes
}.

(** The codec reads back what it renders. *)
Definition round_trip `{JsonCodec} : Prop :=
  ∀ (v : json) (body : bytes), dumps v = Some body → loads body = Some v.

(** ** Exceptions *)

(** The classes of [httpx.RequestError]: the transport errors and the two
    other request errors. *)
Inductive RequestErrorClass : Type :=
  | ConnectError | ConnectTimeout | ReadTimeout | WriteTimeout | PoolTimeout
  | ReadError | WriteError | CloseError
  | LocalProtocolError | RemoteProtocolError | ProxyError | UnsupportedProtocol
  | DecodingError | TooManyRedirects.

Inductive exn : Type :=
  | RequestError (cls : RequestErrorClass) (message : string)  (* httpx.RequestError; str(e) = message *)
  | JSONDecodeError                     (* raised by response.json() *)
  | ValueError                          (* raised by the rendering of JSONResponse *)
  | IndexError                          (* list index out of range *)
  | HTTPException (status_code : Z) (detail : string)  (* fastapi.HTTPException *)
  | OtherException (name : string).     (* anything else a callee may raise *)

Inductive result (A : Type) : Type :=
  | Ok (a : A)
  | Raise (e : exn).
Arguments Ok {A} a.
Arguments Raise {A} e.

(** [JSONResponse(content=..., status_code=..., headers=...)]: the body is
    rendered when the response is built. *)
Definition JSONResponse `{JsonCodec} (content : json) (status_code : Z)
    (headers : headers_dict) : result Response.t :=
  match dumps content with
  | Some body => Ok (Response.make body status_code "application/json" headers)
  | None => Raise ValueError
  end.

(** ** The dispatcher's effects

    The middleware hands a request on to one of two parties: the rest of
    the application ([call_next]) and the shared [client].  A [World]
    fixes how they answer; the trace records each of these calls with its
    argument, in order. *)

Inductive event : Type :=
  | CallNext (request : Request.t)
  | ClientRequest (call : Call.t).

Record World : Type := {
  call_next : Request.t → result Response.t;
  client_request : Call.t → result Backend.t
}.

Definition M (A : Type) : Type := World → list event → result A * list event.

Definition ret {A} (a : A) : M A := λ _ tr, (Ok a, tr).
Definition raise {A} (e : exn) : M A := λ _ tr, (Raise e, tr).
Definition bind {A B} (m : M A) (k : A → M B) : M B :=
  λ w tr, match m w tr with
          | (Ok a, tr') => k a w tr'
          | (Raise e, tr') => (Raise e, tr')
          end.

#[global] Instance M_ret : MRet M := @ret.
#[global] Instance M_bind : MBind M := λ A B k m, bind m k.

(** [await call_next(request)] *)
Definition await_call_next (request : Request.t) : M Response.t :=
  λ w tr, (call_next w request, tr ++ [CallNext request]).

(** [await client.request(...)] *)
Definition await_client_request (call : Call.t) : M Backend.t :=
  λ w tr, (client_request w call, tr ++ [ClientRequest call]).

(** [try: body except httpx.RequestError as e: handler] *)
Definition try_except_RequestError {A} (body : M A)
    (handler : RequestErrorClass → string → M A) : M A :=
  λ w tr, match body w tr with
          | (Raise (RequestError cls message), tr') => handler cls message w tr'
          | r => r
          end.

(** A value, or the exception raised in its place. *)
Definition of_result {A} (r : result A) : M A := λ _ tr, (r, tr).

(** [l[i]] *)
Definition getitem {A} (l : list A) (i : nat) : M A :=
  match l !! i with
  | Some x => ret x
  | None => raise IndexError
  end.

(** [x or y] on strings: the empty string is false. *)
Definition str_or (x y : string) : string :=
  if String.eqb x "" then y else x.

(** ** The routing table and the middleware *)

Definition SERVICE_URLS : gmap string string :=
  <["equipment" := "http://equipment-service:8001"]>
  (<["providers" := "http://provider-service:8002"]>
  (<["maintenance" := "http://maintenance-service:8003"]>
  (<["reports" := "http://report-service:8004"]> ∅))).

Section Gateway.
Context `{JsonCodec}.

(** [response.json()] *)
Definition response_json (response : Backend.t) : M json :=
  match loads (Backend.content response) with
  | Some v => ret v
  | None => raise JSONDecodeError
  end.

Definition forward_request (request : Request.t) : M Response.t :=
  let path_parts := Py.split "/" (Py.strip "/" (Request.path request)) in
  if bool_decide (path_parts = []) then await_call_next request else
  service_name ← getitem path_parts 0;
  match SERVICE_URLS !! service_name with
  | None => await_call_next request
  | Some base =>
      let target_url := base +:+ Request.path request in
      try_except_RequestError
        (let headers := Request.headers request in
         authority ← getitem (Py.split "//" target_url) 1;
         host ← getitem (Py.split "/" authority) 0;
         let headers := <["host" := host]> headers in
         response ← await_client_request
           (Call.make (Request.method request) target_url headers
                      (Request.query_params request) (Request.body request));
         let content_type :=
           Py.lower (default "" (Backend.headers response !! "content-type")) in
         let forward_headers := Backend.headers response in
         let forward_headers := delete "content-encoding" forward_headers in
         let forward_headers := delete "transfer-encoding" forward_headers in
         let forward_headers := delete "connection" forward_headers in
         if Py.contains "application/json" content_type
            || Py.contains "application/problem+json" content_type
         then
           content ← response_json response;
           of_result (JSONResponse content (Backend.status_code response) forward_headers)
         else
           ret (Response.make (Backend.content response)
                              (Backend.status_code response)
                              (str_or content_type "application/octet-stream")
                              forward_headers))
        (λ _ message,
           raise (HTTPException 503
                    ("Service " +:+ service_name +:+ " is unavailable: " +:+ message)))
  end.

(** One request handled from an empty trace. *)
Definition handle (w : World) (request : Request.t) : result Response.t * list event :=
  forward_request request w [].

End Gateway.

(** ** Notions used to state the properties *)

(** The part of [s] before the first occurrence of the character [c]. *)
Fixpoint before (c : ascii) (s : string) : string :=
  match s with
  | EmptyString => EmptyString
  | String x s' => if Ascii.eqb x c then EmptyString else String x (before c s')
  end.

(** The first segment of a request path: the path stripped of leading and
    trailing slashes, split on slashes, first piece. *)
Definition first_segment (path : string) : option string :=
  Py.split "/" (Py.strip "/" path) !! 0%nat.

(** The content type a backend response declares ([""] when it declares
    none). *)
Definition declared_content_type (response : Backend.t) : string :=
  default "" (Backend.headers response !! "content-type").

(** The test of the dispatcher: the content type, in lower case, has
    [application/json] or [application/problem+json] somewhere in it. *)
Definition json_family (content_type : string) : bool :=
  Py.contains "application/json" (Py.lower content_type)
  || Py.contains "application/problem+json" (Py.lower content_type).

(** The media type a content type names: what stands before the first
    [;], without the blanks around it, in lower case. *)
Definition media_type_of (content_type : string) : string :=
  Py.lower (Py.strip " " (before ";" content_type)).

(** A content type of the JSON family: its media type is
    [application/json] or [application/problem+json]. *)
Definition json_media_type (content_type : string) : bool :=
  String.eqb (media_type_of content_type) "application/json"
  || String.eqb (media_type_of content_type) "application/problem+json".

(** The headers that are not relayed. *)
Definition stripped_headers : list string :=
  ["content-encoding"; "transfer-encoding"; "connection"].

(** The outbound call for [request], to the backend at [base], announced
    under [host]. *)
Definition outbound (request : Request.t) (base host : string) : Call.t :=
  Call.make (Request.method request) (base +:+ Request.path request)
            (<["host" := host]> (Request.headers request))
            (Request.query_params request) (Request.body request).

(** The content type a response is sent with: the [content-type] of its
    [headers], and its [media_type] only when [headers] has none. *)
Definition sent_content_type (r : Response.t) : string :=
  default (Response.media_type r) (Response.headers r !! "content-type").

(** [s] ends with the character [c]. *)
Fixpoint ends_with (c : ascii) (s : string) : bool :=
  match s with
  | EmptyString => false
  | String x EmptyString => Ascii.eqb x c
  | String _ s' => ends_with c s'
  end.

(** What the application answers for an outcome of the middleware.  The
    middleware is registered with [@app.middleware("http")]: it runs
    inside the server-error layer of the framework and outside the
    exception handlers, which stand around the routes.  A response it
    returns is the answer; an exception it ends with, an [HTTPException]
    included, meets no handler, and the answer is the server-error layer's:
    status 500 with the text [Internal Server Error]. *)
Definition Internal_Server_Error : Response.t :=
  Response.make (String.list_byte_of_string "Internal Server Error") 500 "text/plain" ∅.

Definition app_answer (r : result Response.t) : Response.t :=
  match r with
  | Ok out => out
  | Raise _ => Internal_Server_Error
  end.

Section Relayed.
Context `{JsonCodec}.

(** What is returned for a backend response. *)
Definition relayed (response : Backend.t) : result Response.t :=
  let forward_headers :=
    delete "connection" (delete "transfer-encoding"
      (delete "content-encoding" (Backend.headers response))) in
  if json_family (declared_content_type response) then
    match loads (Backend.content response) with
    | Some v => JSONResponse v (Backend.status_code response) forward_headers
    | None => Raise JSONDecodeError
    end
  else
    Ok (Response.make (Backend.content response) (Backend.status_code response)
          (str_or (Py.lower (declared_content_type response)) "application/octet-stream")
          forward_headers).

(** What the dispatcher answers once the client call has come back. *)
Definition answered (service_name : string) (r : result Backend.t) : result Response.t :=
  match r with
  | Ok response => relayed response
  | Raise (RequestError _ message) =>
      Raise (HTTPException 503
               ("Service " +:+ service_name +:+ " is unavailable: " +:+ message))
  | Raise e => Raise e
  end.

End Relayed.

(** ** A small JSON codec *)

Module MiniJson.

(** The numbers that are not finite; the decoder of Python reads them
    from the words [NaN], [Infinity] and [-Infinity]. *)
Inductive nonfinite : Type := NaN | Infinity | NegInfinity.

(** JSON values, numbers being integers or not finite, and objects lists
    of members in their order. *)
#[local] Unset Elimination Schemes.
Inductive value : Type :=
  | Null
  | Bool (b : bool)
  | Int (z : Z)
  | NonFinite (x : nonfinite)
  | Str (s : string)
  | Array (items : list value)
  | Object (members : list (string * value)).
#[local] Set Elimination Schemes.

Definition quote : ascii := "034".
Definition backslash : ascii := "092".

(** The letter that follows the backslash when [c] is written escaped. *)
Definition escape_letter (c : ascii) : option ascii :=
  if Ascii.eqb c quote then Some quote
  else if Ascii.eqb c backslash then Some backslash
  else if Ascii.eqb c "010" then Some "n"%char
  else if Ascii.eqb c "013" then Some "r"%char
  else if Ascii.eqb c "009" then Some "t"%char
  else if Ascii.eqb c "008" then Some "b"%char
  else if Ascii.eqb c "012" then Some "f"%char
  else None.

(** The character an escape letter stands for. *)
Definition unescape_letter (e : ascii) : option ascii :=
  if Ascii.eqb e quote then Some quote
  else if Ascii.eqb e backslash then Some backslash
  else if Ascii.eqb e "/" then Some "/"%char
  else if Ascii.eqb e "n" then Some "010"%char
  else if Ascii.eqb e "r" then Some "013"%char
  else if Ascii.eqb e "t" then Some "009"%char
  else if Ascii.eqb e "b" then Some "008"%char
  else if Ascii.eqb e "f" then Some "012"%char
  else None.

Fixpoint print_chars (s : string) : string :=
  match s with
  | EmptyString => EmptyString
  | String c s' =>
      match escape_letter c with
      | Some e => String backslash (String e (print_chars s'))
      | None => String c (print_chars s')
      end
  end.

Definition print_string (s : string) : string :=
  String quote (print_chars s +:+ String quote EmptyString).

Definition print_int (z : Z) : string :=
  DecimalString.NilEmpty.string_of_int (Z.to_int z).

(** The elements of a list, each printed by [f], with commas between. *)
Definition print_list {A} (f : A → string) : list A → string :=
  fix go (l : list A) : string :=
    match l with
    | [] => EmptyString
    | x :: l' =>
        match l' with
        | [] => f x
        | _ :: _ => f x +:+ "," +:+ go l'
        end
    end.

Definition print_nonfinite (x : nonfinite) : string :=
  match x with
  | NaN => "NaN"
  | Infinity => "Infinity"
  | NegInfinity => "-Infinity"
  end.

(** The compact rendering: no blank around [,] and [:]. *)
Fixpoint print (v : value) : string :=
  match v with
  | Null => "null"
  | Bool true => "true"
  | Bool false => "false"
  | Int z => print_int z
  | NonFinite x => print_nonfinite x
  | Str s => print_string s
  | Array items => "[" +:+ print_list print items +:+ "]"
  | Object members =>
      "{" +:+ print_list (λ m, print_string m.1 +:+ ":" +:+ print m.2) members +:+ "}"
  end.

Definition is_ws (c : ascii) : bool :=
  Ascii.eqb c " " || Ascii.eqb c "009" || Ascii.eqb c "010" || Ascii.eqb c "013".

Fixpoint skip_ws (s : string) : string :=
  match s with
  | EmptyString => EmptyString
  | String c s' => if is_ws c then skip_ws s' else s
  end.

(** [s] without its prefix [p], when it has that prefix. *)
Fixpoint strip_prefix (p s : string) : option string :=
  match p with
  | EmptyString => Some s
  | String a p' =>
      match s with
      | EmptyString => None
      | String b s' => if Ascii.eqb a b then strip_prefix p' s' else None
      end
  end.

(** The characters of a string literal after its opening quote, up to the
    closing one. *)
Fixpoint parse_chars (s : string) : option (string * string) :=
  match s with
  | EmptyString => None
  | String c s' =>
      if Ascii.eqb c quote then Some (EmptyString, s')
      else if Ascii.eqb c backslash then
        match s' with
        | EmptyString => None
        | String e s'' =>
            match unescape_letter e, parse_chars s'' with
            | Some x, Some (t, r) => Some (String x t, r)
            | _, _ => None
            end
        end
      else
        match parse_chars s' with
        | Some (t, r) => Some (String c t, r)
        | None => None
        end
  end.

Definition digit_of (c : ascii) : option (Decimal.uint → Decimal.uint) :=
  if Ascii.eqb c "0" then Some Decimal.D0
  else if Ascii.eqb c "1" then Some Decimal.D1
  else if Ascii.eqb c "2" then Some Decimal.D2
  else if Ascii.eqb c "3" then Some Decimal.D3
  else if Ascii.eqb c "4" then Some Decimal.D4
  else if Ascii.eqb c "5" then Some Decimal.D5
  else if Ascii.eqb c "6" then Some Decimal.D6
  else if Ascii.eqb c "7" then Some Decimal.D7
  else if Ascii.eqb c "8" then Some Decimal.D8
  else if Ascii.eqb c "9" then Some Decimal.D9
  else None.

(** The longest run of digits at the head of [s]. *)
Fixpoint parse_digits (s : string) : Decimal.uint * string :=
  match s with
  | EmptyString => (Decimal.Nil, EmptyString)
  | String c s' =>
      match digit_of c with
      | Some d => let (u, r) := parse_digits s' in (d u, r)
      | None => (Decimal.Nil, s)
      end
  end.

Definition parse_int (s : string) : option (Z * string) :=
  match s with
  | String "-" s' =>
      match parse_digits s' with
      | (Decimal.Nil, _) => None
      | (u, r) => Some (Z.of_int (Decimal.Neg u), r)
      end
  | _ =>
      match parse_digits s with
      | (Decimal.Nil, _) => None
      | (u, r) => Some (Z.of_int (Decimal.Pos u), r)
      end
  end.

Fixpoint parse_value (fuel : nat) (s : string) : option (value * string) :=
  match fuel with
  | O => None
  | S fuel =>
      let s := skip_ws s in
      match strip_prefix "null" s, strip_prefix "true" s, strip_prefix "false" s with
      | Some r, _, _ => Some (Null, r)
      | _, Some r, _ => Some (Bool true, r)
      | _, _, Some r => Some (Bool false, r)
      | None, None, None =>
          match s with
          | EmptyString => None
          | String c s' =>
              if Ascii.eqb c quote then
                match parse_chars s' with
                | Some (t, r) => Some (Str t, r)
                | None => None
                end
              else if Ascii.eqb c "[" then
                match strip_prefix "]" (skip_ws s') with
                | Some r => Some (Array [], r)
                | None =>
                    match parse_items fuel s' with
                    | Some (l, r) => Some (Array l, r)
                    | None => None
                    end
                end
              else if Ascii.eqb c "{" then
                match strip_prefix "}" (skip_ws s') with
                | Some r => Some (Object [], r)
                | None =>
                    match parse_members fuel s' with
                    | Some (l, r) => Some (Object l, r)
                    | None => None
                    end
                end
              else
                match strip_prefix "NaN" s, strip_prefix "Infinity" s,
                      strip_prefix "-Infinity" s with
                | Some r, _, _ => Some (NonFinite NaN, r)
                | _, Some r, _ => Some (NonFinite Infinity, r)
                | _, _, Some r => Some (NonFinite NegInfinity, r)
                | None, None, None =>
                    match parse_int s with
                    | Some (z, r) => Some (Int z, r)
                    | None => None
                    end
                end
          end
      end
  end
with parse_items (fuel : nat) (s : string) : option (list value * string) :=
  match fuel with
  | O => None
  | S fuel =>
      match parse_value fuel s with
      | None => None
      | Some (v, r) =>
          match strip_prefix "," (skip_ws r), strip_prefix "]" (skip_ws r) with
          | Some r', _ =>
              match parse_items fuel r' with
              | Some (l, r'') => Some (v :: l, r'')
              | None => None
              end
          | None, Some r' => Some ([v], r')
          | None, None => None
          end
      end
  end
with parse_members (fuel : nat) (s : string) : option (list (string * value) * string) :=
  match fuel with
  | O => None
  | S fuel =>
      match strip_prefix (String quote EmptyString) (skip_ws s) with
      | None => None
      | Some s1 =>
          match parse_chars s1 with
          | None => None
          | Some (k, r1) =>
              match strip_prefix ":" (skip_ws r1) with
              | None => None
              | Some r2 =>
                  match parse_value fuel r2 with
                  | None => None
                  | Some (v, r3) =>
                      match strip_prefix "," (skip_ws r3), strip_prefix "}" (skip_ws r3) with
                      | Some r4, _ =>
                          match parse_members fuel r4 with
                          | Some (l, r5) => Some ((k, v) :: l, r5)
                          | None => None
                          end
                      | None, Some r4 => Some ([(k, v)], r4)
                      | None, None => None
                      end
                  end
              end
          end
      end
  end.

(** A whole text: one value, then nothing but blanks. *)
Definition parse (s : string) : option value :=
  match parse_value (2 * String.length s) s with
  | Some (v, r) => if String.eqb (skip_ws r) "" then Some v else None
  | None => None
  end.

(** The values that can be rendered with [allow_nan=False]: those without
    a number that is not finite. *)
Fixpoint finite (v : value) : bool :=
  match v with
  | NonFinite _ => false
  | Array items => forallb finite items
  | Object members => forallb (λ m, finite m.2) members
  | _ => true
  end.

Definition loads (b : bytes) : option value := parse (String.string_of_list_byte b).
Definition dumps (v : value) : option bytes :=
  if finite v then Some (String.list_byte_of_string (print v)) else None.

End MiniJson.

(** JSON text for the examples, written with apostrophes for the double
    quotes. *)
Fixpoint json_text (s : string) : string :=
  match s with
  | EmptyString => EmptyString
  | String c s' => String (if Ascii.eqb c "'" then MiniJson.quote else c) (json_text s')
  end.


(** * Properties *)

(** ** Facts about the string operations *)


Example strip_ex : Py.strip "/" "//equipment/42/" = "equipment/42".
Proof. reflexivity. Qed.
Example split_ex1 : Py.split "/" "equipment/42" = ["equipment"; "42"].
Proof. reflexivity. Qed.
Example split_ex2 : Py.split "//" "http://equipment-service:8001/equipment//42" =
  ["http:"; "equipment-service:8001/equipment"; "42"].
Proof. reflexivity. Qed.
Example split_ex3 : Py.split "//" "a///b" = ["a"; "/b"].
Proof. reflexivity. Qed.
Example split_ex4 : Py.split "/" "" = [""].
Proof. reflexivity. Qed.
Example split_ex5 : Py.split "/" "/a/" = [""; "a"; ""].
Proof. reflexivity. Qed.
Example lower_ex : Py.lower "Application/JSON; Charset=UTF-8" = "application/json; charset=utf-8".
Proof. reflexivity. Qed.
Example contains_ex : Py.contains "application/json" "application/json; charset=utf-8" = true.
Proof. reflexivity. Qed.

Section StringFacts.
Implicit Types (s t u cur sep : string) (c x : ascii).
#[local] Arguments String.append !_ _ : simpl nomatch.

Lemma append_assoc s t u : (s +:+ t) +:+ u = s +:+ (t +:+ u).
Proof. induction s as [|x s IH]; simpl; [done | by f_equal]. Qed.

Lemma append_nil_r s : s +:+ "" = s.
Proof. induction s as [|x s IH]; simpl; [done | by f_equal]. Qed.

Lemma length_append s t :
  String.length (s +:+ t) = (String.length s + String.length t)%nat.
Proof. induction s as [|x s IH]; simpl; [done | by f_equal]. Qed.

Lemma append_snoc cur x s : (cur +:+ String x "") +:+ s = cur +:+ String x s.
Proof. by rewrite append_assoc. Qed.

Lemma prefix_app s t : String.prefix s (s +:+ t) = true.
Proof.
  induction s as [|x s IH]; simpl; [by destruct t |].
  by destruct (ascii_dec x x).
Qed.

Lemma prefix_char c s : String.prefix (String c "") s = true → ∃ t, s = String c t.
Proof.
  destruct s as [|x s]; cbn [String.prefix]; [done |].
  destruct (ascii_dec c x) as [->|]; [by eexists | done].
Qed.

Lemma prefix_head_ne c sep x s : c ≠ x → String.prefix (String c sep) (String x s) = false.
Proof. intros Hne. simpl. by destruct (ascii_dec c x). Qed.

Lemma contains_prefix needle hay :
  String.prefix needle hay = true → Py.contains needle hay = true.
Proof. intros Hp. destruct hay; cbn [Py.contains]; by rewrite Hp. Qed.

Lemma contains_app needle s t : Py.contains needle (s +:+ needle +:+ t) = true.
Proof.
  induction s as [|x s IH].
  - change ("" +:+ needle +:+ t) with (needle +:+ t).
    apply contains_prefix, prefix_app.
  - change (String x s +:+ needle +:+ t) with (String x (s +:+ needle +:+ t)).
    cbn [Py.contains]. rewrite IH. apply orb_true_r.
Qed.

(** [split] never answers the empty list. *)
Lemma split_from_nonempty sep skip cur s : Py.split_from sep skip cur s ≠ [].
Proof.
  revert skip cur. induction s as [|x s IH]; intros skip cur;
    cbn [Py.split_from]; [done |].
  destruct skip; [| apply IH].
  destruct (String.prefix sep (String x s)); [done | apply IH].
Qed.

Lemma split_nonempty sep s : Py.split sep s ≠ [].
Proof. apply split_from_nonempty. Qed.

Lemma split_head_is_Some sep s : is_Some (Py.split sep s !! 0%nat).
Proof.
  pose proof (split_nonempty sep s). destruct (Py.split sep s); [done | by eexists].
Qed.

(** Characters other than the separator's first one are read into the
    current piece. *)
Lemma split_from_pass c sep cur t s :
  Py.char_in c t = false →
  Py.split_from (String c sep) 0 cur (t +:+ s)
  = Py.split_from (String c sep) 0 (cur +:+ t) s.
Proof.
  revert cur. induction t as [|x t IH]; intros cur Ht.
  - by rewrite append_nil_r.
  - simpl in Ht. apply orb_false_elim in Ht as [Hx Ht].
    apply Ascii.eqb_neq in Hx.
    change (String x t +:+ s) with (String x (t +:+ s)).
    cbn [Py.split_from]. rewrite prefix_head_ne by done.
    rewrite IH by done. by rewrite append_snoc.
Qed.

(** At an occurrence of the separator the current piece is closed and
    the rest of the separator is passed over. *)
Lemma split_from_sep c sep cur s :
  Py.split_from (String c sep) 0 cur (String c sep +:+ s)
  = cur :: Py.split_from (String c sep) (String.length sep) "" (sep +:+ s).
Proof.
  change (String c sep +:+ s) with (String c (sep +:+ s)).
  cbn [Py.split_from].
  change (String c (sep +:+ s)) with (String c sep +:+ s).
  by rewrite prefix_app.
Qed.

Lemma split_from_skip sep cur t s :
  Py.split_from sep (String.length t) cur (t +:+ s) = Py.split_from sep 0 cur s.
Proof. induction t as [|x t IH]; [by destruct s | exact IH]. Qed.

(** The first piece of a split on one character. *)
Lemma split_char_head c cur s :
  Py.split_from (String c "") 0 cur s !! 0%nat = Some (cur +:+ before c s).
Proof.
  revert cur. induction s as [|x s IH]; intros cur; simpl.
  - by rewrite append_nil_r.
  - destruct (ascii_dec c x) as [->|Hne].
    + rewrite Ascii.eqb_refl. destruct s; simpl; by rewrite append_nil_r.
    + rewrite (proj2 (Ascii.eqb_neq x c)) by done.
      rewrite IH. by rewrite append_snoc.
Qed.

(** The first piece of a split on a doubled character reaches at least
    to the first single occurrence. *)
Lemma split_double_head c cur s :
  ∃ t, Py.split_from (String c (String c "")) 0 cur s !! 0%nat = Some (cur +:+ t)
       ∧ before c t = before c s.
Proof.
  revert cur. induction s as [|x s IH]; intros cur.
  - exists "". by rewrite append_nil_r.
  - cbn [Py.split_from].
    destruct (String.prefix (String c (String c "")) (String x s)) eqn:Hp.
    + exists "". rewrite append_nil_r. split; [done |].
      simpl in Hp. destruct (ascii_dec c x) as [->|]; [| done].
      simpl. by rewrite Ascii.eqb_refl.
    + destruct (IH (cur +:+ String x "")) as (t & Ht & Hb).
      exists (String x t). rewrite Ht, append_snoc. split; [done |].
      simpl. by rewrite Hb.
Qed.

Lemma before_app c t s : Py.char_in c t = false → before c (t +:+ s) = t +:+ before c s.
Proof.
  induction t as [|x t IH]; intros Ht; simpl; [done |].
  simpl in Ht. apply orb_false_elim in Ht as [Hx Ht].
  rewrite Ascii.eqb_sym, Hx. by rewrite IH.
Qed.

(** [target_url.split("//")[1].split("/")[0]] on a target made from an
    [http://host:port] base: the host and port, followed by whatever the
    path has before its first slash. *)
Lemma target_host hostport path :
  Py.char_in "/" hostport = false →
  ∃ authority,
    Py.split "//" ("http://" +:+ hostport +:+ path) !! 1%nat = Some authority
    ∧ Py.split "/" authority !! 0%nat = Some (hostport +:+ before "/" path).
Proof.
  intros Hhp.
  destruct (split_double_head "/" hostport path) as (t & Ht & Hb).
  exists (hostport +:+ t). split.
  - unfold Py.split.
    change ("http://" +:+ hostport +:+ path)
      with ("http:" +:+ "//" +:+ hostport +:+ path).
    rewrite (split_from_pass "/" "/" "" "http:") by done.
    rewrite split_from_sep, (split_from_skip "//" "" "/").
    cbn [lookup list_lookup].
    rewrite split_from_pass by done. exact Ht.
  - unfold Py.split. rewrite split_char_head. simpl.
    by rewrite before_app, Hb.
Qed.

End StringFacts.

(** ** The small codec reads back what it renders *)

Module MiniJsonFacts.
Import MiniJson.
#[local] Arguments String.append !_ _ : simpl nomatch.

(** Induction on values, with the hypothesis for every item of an array
    and every member of an object. *)
Section value_ind.
Variable P : value → Prop.
Hypothesis HNull : P Null.
Hypothesis HBool : ∀ b, P (Bool b).
Hypothesis HInt : ∀ z, P (Int z).
Hypothesis HNonFinite : ∀ x, P (NonFinite x).
Hypothesis HStr : ∀ s, P (Str s).
Hypothesis HArray : ∀ items, Forall P items → P (Array items).
Hypothesis HObject : ∀ members, Forall (λ m, P m.2) members → P (Object members).

Fixpoint value_ind (v : value) : P v :=
  match v with
  | Null => HNull
  | Bool b => HBool b
  | Int z => HInt z
  | NonFinite x => HNonFinite x
  | Str s => HStr s
  | Array items =>
      HArray items
        ((fix go (l : list value) : Forall P l :=
            match l with
            | [] => @List.Forall_nil _ P
            | x :: l' => @List.Forall_cons _ P x l' (value_ind x) (go l')
            end) items)
  | Object members =>
      HObject members
        ((fix go (l : list (string * value)) : Forall (λ m, P m.2) l :=
            match l with
            | [] => @List.Forall_nil _ (λ m, P m.2)
            | m :: l' => @List.Forall_cons _ (λ m, P m.2) m l' (value_ind m.2) (go l')
            end) members)
  end.
End value_ind.

Lemma strip_prefix_app p s : strip_prefix p (p +:+ s) = Some s.
Proof.
  induction p as [|a p IH]; simpl; [done |]. by rewrite Ascii.eqb_refl.
Qed.

Lemma unescape_escape c e : escape_letter c = Some e → unescape_letter e = Some c.
Proof.
  unfold escape_letter.
  repeat match goal with
         | |- context [Ascii.eqb c ?x] =>
             destruct (Ascii.eqb_spec c x) as [->|_]; [intros [= <-]; reflexivity |]
         end.
  intros [=].
Qed.

Lemma escape_None c :
  escape_letter c = None → Ascii.eqb c quote = false ∧ Ascii.eqb c backslash = false.
Proof.
  unfold escape_letter.
  destruct (Ascii.eqb c quote); [done |].
  by destruct (Ascii.eqb c backslash).
Qed.

Lemma parse_chars_print s r :
  parse_chars (print_chars s +:+ String quote r) = Some (s, r).
Proof.
  induction s as [|c s IH]; [reflexivity |].
  cbn [print_chars]. destruct (escape_letter c) as [e|] eqn:He.
  - change (parse_chars (String backslash (String e (print_chars s +:+ String quote r)))
            = Some (String c s, r)).
    cbn [parse_chars].
    change (Ascii.eqb backslash quote) with false.
    change (Ascii.eqb backslash backslash) with true. cbv iota.
    by rewrite (unescape_escape _ _ He), IH.
  - change (parse_chars (String c (print_chars s +:+ String quote r))
            = Some (String c s, r)).
    cbn [parse_chars].
    destruct (escape_None _ He) as [-> ->]. by rewrite IH.
Qed.

(** A text that does not go on with a digit. *)
Definition no_digit_head (r : string) : Prop :=
  match r with
  | EmptyString => True
  | String c _ => digit_of c = None
  end.

Lemma parse_digits_print d r :
  no_digit_head r →
  parse_digits (DecimalString.NilEmpty.string_of_uint d +:+ r) = (d, r).
Proof.
  intros Hr. induction d; simpl; try (by rewrite IHd).
  destruct r as [|c r]; simpl; [done |]. simpl in Hr. by rewrite Hr.
Qed.

Lemma uint_head d :
  d ≠ Decimal.Nil →
  ∃ c t, DecimalString.NilEmpty.string_of_uint d = String c t ∧ is_Some (digit_of c).
Proof. destruct d; intros Hd; try done; simpl; do 2 eexists; split; done. Qed.

Lemma to_int_head z :
  ∃ d, d ≠ Decimal.Nil ∧
       (Z.to_int z = Decimal.Pos d ∨ Z.to_int z = Decimal.Neg d).
Proof.
  destruct z as [|p|p]; simpl.
  - exists Decimal.zero. split; [done | by left].
  - exists (Pos.to_uint p). split; [apply DecimalPos.Unsigned.to_uint_nonnil | by left].
  - exists (Pos.to_uint p). split; [apply DecimalPos.Unsigned.to_uint_nonnil | by right].
Qed.

Lemma parse_int_print z r :
  no_digit_head r → parse_int (print_int z +:+ r) = Some (z, r).
Proof.
  intros Hr. unfold print_int.
  destruct (to_int_head z) as (d & Hd & [Hz|Hz]); rewrite Hz;
    cbn [DecimalString.NilEmpty.string_of_int].
  - destruct (uint_head d Hd) as (c & t & Ht & [f Hc]).
    assert (parse_int (DecimalString.NilEmpty.string_of_uint d +:+ r)
            = match parse_digits (DecimalString.NilEmpty.string_of_uint d +:+ r) with
              | (Decimal.Nil, _) => None
              | (u, r) => Some (Z.of_int (Decimal.Pos u), r)
              end) as ->.
    { rewrite Ht. change (String c t +:+ r) with (String c (t +:+ r)).
      unfold parse_int.
      destruct (Ascii.eqb_spec c "-") as [->|Hne]; [done |].
      destruct c as [[] [] [] [] [] [] [] []]; done. }
    rewrite parse_digits_print by done.
    destruct d; [done | ..]; by rewrite <- Hz, DecimalZ.of_to.
  - change (String "-" (DecimalString.NilEmpty.string_of_uint d) +:+ r)
      with (String "-" (DecimalString.NilEmpty.string_of_uint d +:+ r)).
    cbn [parse_int]. rewrite parse_digits_print by done.
    destruct d; [done | ..]; by rewrite <- Hz, DecimalZ.of_to.
Qed.


Lemma print_int_head z :
  ∃ c t, print_int z = String c t ∧ (c = "-"%char ∨ is_Some (digit_of c)).
Proof.
  unfold print_int.
  destruct (to_int_head z) as (d & Hd & [Hz|Hz]); rewrite Hz;
    cbn [DecimalString.NilEmpty.string_of_int].
  - destruct (uint_head d Hd) as (c & t & Ht & Hc). exists c, t. eauto.
  - do 2 eexists. split; [done | by left].
Qed.

(** What the first character of a number is not. *)
Lemma int_head_facts c :
  c = "-"%char ∨ is_Some (digit_of c) →
  is_ws c = false
  ∧ Ascii.eqb c quote = false ∧ Ascii.eqb c "[" = false ∧ Ascii.eqb c "{" = false
  ∧ Ascii.eqb "n" c = false ∧ Ascii.eqb "t" c = false ∧ Ascii.eqb "f" c = false
  ∧ Ascii.eqb "]" c = false ∧ Ascii.eqb "}" c = false
  ∧ Ascii.eqb "N" c = false ∧ Ascii.eqb "I" c = false.
Proof.
  intros [->|[d Hd]]; [by repeat split |].
  revert Hd. unfold digit_of.
  repeat match goal with
         | |- context [Ascii.eqb c ?x] =>
             destruct (Ascii.eqb_spec c x) as [->|_]; [by repeat split |]
         end.
  intros [=].
Qed.

Lemma digit_head_facts c :
  is_Some (digit_of c) → Ascii.eqb "-" c = false ∧ Ascii.eqb "I" c = false.
Proof.
  intros [d Hd]. revert Hd. unfold digit_of.
  repeat match goal with
         | |- context [Ascii.eqb c ?x] =>
             destruct (Ascii.eqb_spec c x) as [->|_]; [by repeat split |]
         end.
  intros [=].
Qed.

(** A text that starts as a number does, and is not the word
    [-Infinity], is read as a number. *)
Lemma parse_value_int fuel c t :
  is_Some (digit_of c)
  ∨ (c = "-"%char ∧ ∃ c' t', t = String c' t' ∧ is_Some (digit_of c')) →
  parse_value (S fuel) (String c t)
  = match parse_int (String c t) with
    | Some (z, r) => Some (Int z, r)
    | None => None
    end.
Proof.
  intros Hc.
  assert (c = "-"%char ∨ is_Some (digit_of c)) as Hc' by (destruct Hc as [?|[? _]]; eauto).
  destruct (int_head_facts c Hc') as (Hws & Hq & Ha & Ho & Hn & Ht & Hf & _ & _ & HN & HI).
  assert (strip_prefix "-Infinity" (String c t) = None) as Hminus.
  { destruct Hc as [Hd|(-> & c' & t' & -> & Hd)];
      destruct (digit_head_facts _ Hd) as [Hm Hi]; cbn [strip_prefix].
    - by rewrite Hm.
    - change (Ascii.eqb "-" "-") with true. cbv iota. by rewrite Hi. }
  cbn [parse_value skip_ws]. rewrite Hws, Hminus. cbn [strip_prefix].
  by rewrite Hn, Ht, Hf, Hq, Ha, Ho, HN, HI.
Qed.

(** The rendering of an integer starts as a number does. *)
Lemma print_int_number z :
  ∃ c t, print_int z = String c t
         ∧ (is_Some (digit_of c)
            ∨ (c = "-"%char ∧ ∃ c' t', t = String c' t' ∧ is_Some (digit_of c'))).
Proof.
  unfold print_int.
  destruct (to_int_head z) as (d & Hd & [Hz|Hz]); rewrite Hz;
    cbn [DecimalString.NilEmpty.string_of_int];
    destruct (uint_head d Hd) as (c & t & Ht & Hc).
  - exists c, t. eauto.
  - rewrite Ht. do 2 eexists. split; [done |]. right. split; [done |]. eauto.
Qed.

(** A rendered value starts with a character that is neither a blank nor
    a closing bracket. *)
Lemma print_head v :
  ∃ c t, print v = String c t
         ∧ is_ws c = false ∧ Ascii.eqb "]" c = false ∧ Ascii.eqb "}" c = false.
Proof.
  destruct v as [|[]|z|[]| | |]; try (by do 2 eexists).
  destruct (print_int_head z) as (c & t & Hp & Hc).
  destruct (int_head_facts c Hc) as (Hws & _ & _ & _ & _ & _ & _ & Hb & Hb' & _).
  by exists c, t.
Qed.

Lemma print_length_pos v : (1 ≤ String.length (print v))%nat.
Proof. destruct (print_head v) as (c & t & -> & _). simpl. lia. Qed.

Lemma print_list_one {A} (f : A → string) x : print_list f [x] = f x.
Proof. reflexivity. Qed.

Lemma print_list_more {A} (f : A → string) x y l :
  print_list f (x :: y :: l) = f x +:+ "," +:+ print_list f (y :: l).
Proof. reflexivity. Qed.

(** [v], rendered and followed by [r], is read back as [v] leaving [r],
    with fuel for twice its length. *)
Definition reads_back (v : value) : Prop :=
  ∀ fuel r,
    no_digit_head r →
    (2 * String.length (print v) ≤ fuel)%nat →
    parse_value fuel (print v +:+ r) = Some (v, r).

Lemma expect_here a r :
  is_ws a = false → strip_prefix (String a "") (skip_ws (String a r)) = Some r.
Proof. intros Ha. cbn [skip_ws]. rewrite Ha. cbn [strip_prefix]. by rewrite Ascii.eqb_refl. Qed.

Lemma expect_other a b r :
  is_ws b = false → Ascii.eqb a b = false →
  strip_prefix (String a "") (skip_ws (String b r)) = None.
Proof. intros Hb Hab. cbn [skip_ws]. rewrite Hb. cbn [strip_prefix]. by rewrite Hab. Qed.

Lemma items_read_back items :
  Forall reads_back items → items ≠ [] →
  ∀ fuel r,
    (2 * String.length (print_list print items) + 1 ≤ fuel)%nat →
    parse_items fuel (print_list print items +:+ String "]" r) = Some (items, r).
Proof.
  induction 1 as [|x l Hx _ IH]; [done |]. intros _ fuel r Hfuel.
  destruct fuel as [|fuel]; [lia |]. cbn [parse_items].
  destruct l as [|y l].
  - rewrite print_list_one in *.
    rewrite Hx by (done || lia).
    by rewrite expect_other, expect_here.
  - rewrite print_list_more in *. rewrite !length_append in Hfuel.
    rewrite !append_assoc.
    change ("," +:+ ?t) with (String "," t).
    rewrite Hx by (done || lia).
    rewrite expect_here by done.
    by rewrite IH by (done || simpl in *; lia).
Qed.

Lemma member_text k v rest :
  print_string k +:+ ":" +:+ print v +:+ rest
  = String quote (print_chars k +:+ String quote (String ":" (print v +:+ rest))).
Proof. unfold print_string. simpl. by rewrite !append_assoc. Qed.

Lemma members_read_back members :
  Forall (λ m, reads_back m.2) members → members ≠ [] →
  ∀ fuel r,
    (2 * String.length
           (print_list (λ m, print_string m.1 +:+ ":" +:+ print m.2) members) + 1
     ≤ fuel)%nat →
    parse_members fuel
      (print_list (λ m, print_string m.1 +:+ ":" +:+ print m.2) members +:+ String "}" r)
    = Some (members, r).
Proof.
  induction 1 as [|[k v] l Hv _ IH]; [done |]. intros _ fuel r Hfuel.
  destruct fuel as [|fuel]; [lia |]. cbn [parse_members].
  destruct l as [|m l].
  - rewrite print_list_one in *. cbn [fst snd] in *.
    rewrite !length_append in Hfuel. rewrite !append_assoc.
    rewrite member_text, expect_here, parse_chars_print, expect_here by done.
    rewrite Hv by (done || lia).
    by rewrite expect_other, expect_here.
  - rewrite print_list_more in *. cbn [fst snd] in *.
    rewrite !length_append in Hfuel. rewrite !append_assoc.
    rewrite member_text, expect_here, parse_chars_print, expect_here by done.
    change ("," +:+ ?t) with (String "," t).
    rewrite Hv by (done || lia).
    rewrite expect_here by done.
    by rewrite IH by (done || simpl in *; lia).
Qed.

Lemma parse_value_string fuel t :
  parse_value (S fuel) (String quote t)
  = match parse_chars t with
    | Some (s, r) => Some (Str s, r)
    | None => None
    end.
Proof. reflexivity. Qed.

Lemma parse_value_array fuel t :
  parse_value (S fuel) (String "[" t)
  = match strip_prefix "]" (skip_ws t) with
    | Some r => Some (Array [], r)
    | None =>
        match parse_items fuel t with
        | Some (l, r) => Some (Array l, r)
        | None => None
        end
    end.
Proof. reflexivity. Qed.

Lemma parse_value_object fuel t :
  parse_value (S fuel) (String "{" t)
  = match strip_prefix "}" (skip_ws t) with
    | Some r => Some (Object [], r)
    | None =>
        match parse_members fuel t with
        | Some (l, r) => Some (Object l, r)
        | None => None
        end
    end.
Proof. reflexivity. Qed.

(** Every value is read back from its rendering. *)
Lemma print_reads_back v : reads_back v.
Proof.
  induction v as [|b|z|x|s|items IH|members IH] using value_ind;
    intros fuel r Hr Hfuel;
    (destruct fuel as [|fuel];
     [match type of Hfuel with
      | (2 * String.length (print ?x) ≤ _)%nat => pose proof (print_length_pos x)
      end; lia |]).
  - reflexivity.
  - by destruct b.
  - cbn [print]. destruct (print_int_number z) as (c & t & Hp & Hc).
    rewrite Hp. change (String c t +:+ r) with (String c (t +:+ r)).
    rewrite parse_value_int.
    + change (String c (t +:+ r)) with (String c t +:+ r).
      by rewrite <- Hp, parse_int_print.
    + destruct Hc as [Hc|(-> & c' & t' & -> & Hc)]; [by left | right].
      split; [done |]. by exists c', (t' +:+ r).
  - by destruct x.
  - cbn [print]. unfold print_string.
    change (String quote ?t +:+ r) with (String quote (t +:+ r)).
    rewrite append_assoc, parse_value_string.
    change (String quote "" +:+ r) with (String quote r).
    by rewrite parse_chars_print.
  - cbn [print] in *.
    change ("[" +:+ ?t) with (String "[" t) in *.
    change (String "[" ?t +:+ r) with (String "[" (t +:+ r)).
    rewrite append_assoc, parse_value_array. change ("]" +:+ r) with (String "]" r).
    destruct items as [|x l].
    + change (print_list print [] +:+ String "]" r) with (String "]" r).
      by rewrite expect_here.
    + destruct (print_head x) as (c & t & Hx & Hws & Hb & _).
      assert (∃ t', print_list print (x :: l) = String c t') as [t' Ht'].
      { destruct l; [by eexists |]. rewrite print_list_more, Hx. by eexists. }
      rewrite Ht' at 1.
      change (String c t' +:+ ?u) with (String c (t' +:+ u)).
      rewrite expect_other by done.
      rewrite items_read_back; [done | done | done |].
      cbn [String.length] in Hfuel. rewrite length_append in Hfuel. lia.
  - cbn [print] in *.
    change ("{" +:+ ?t) with (String "{" t) in *.
    change (String "{" ?t +:+ r) with (String "{" (t +:+ r)).
    rewrite append_assoc, parse_value_object. change ("}" +:+ r) with (String "}" r).
    destruct members as [|[k v] l].
    + change (print_list _ [] +:+ String "}" r) with (String "}" r).
      by rewrite expect_here.
    + assert (∃ t', print_list (λ m, print_string m.1 +:+ ":" +:+ print m.2) ((k, v) :: l)
                    = String quote t') as [t' Ht'].
      { destruct l; by eexists. }
      rewrite Ht' at 1.
      change (String quote t' +:+ ?u) with (String quote (t' +:+ u)).
      rewrite expect_other by done.
      rewrite members_read_back; [done | done | done |].
      cbn [String.length] in Hfuel. rewrite length_append in Hfuel. lia.
Qed.

Lemma parse_print v : parse (print v) = Some v.
Proof.
  unfold parse.
  rewrite <- (append_nil_r (print v)) at 2.
  by rewrite print_reads_back.
Qed.

Lemma loads_dumps v body : dumps v = Some body → loads body = Some v.
Proof.
  unfold loads, dumps. destruct (finite v); [| done]. intros [= <-].
  by rewrite String.string_of_list_byte_of_string, parse_print.
Qed.

(** Every finite value is rendered. *)
Lemma dumps_finite v : finite v = true → is_Some (dumps v).
Proof. unfold dumps. intros ->. by eexists. Qed.

End MiniJsonFacts.

(** ** Routing *)

Lemma first_segment_is_Some path : is_Some (first_segment path).
Proof. apply split_head_is_Some. Qed.

(** Every base address of the table is [http://] followed by a host and
    port without a slash. *)
Lemma SERVICE_URLS_base name base :
  SERVICE_URLS !! name = Some base →
  ∃ hostport, base = "http://" +:+ hostport ∧ Py.char_in "/" hostport = false.
Proof.
  unfold SERVICE_URLS. rewrite !lookup_insert, lookup_empty.
  repeat case_decide; intros [= <-]; eexists; split; reflexivity.
Qed.

Lemma SERVICE_URLS_keys name :
  is_Some (SERVICE_URLS !! name) ↔
  name ∈ ["equipment"; "providers"; "maintenance"; "reports"].
Proof.
  unfold SERVICE_URLS. rewrite !lookup_insert, lookup_empty.
  rewrite !elem_of_cons, elem_of_nil.
  repeat case_decide; subst;
    try (split; [intros _; set_solver | intros _; by eexists]).
  split; [by intros [? ?] |].
  intros [->|[->|[->|[->|[]]]]]; congruence.
Qed.

(** ** What the dispatcher does with an in-scope request *)

Section GatewayFacts.
Context `{JsonCodec}.

Lemma forward_request_in_scope request name base w tr :
  first_segment (Request.path request) = Some name →
  SERVICE_URLS !! name = Some base →
  ∃ host,
    (∀ hostport, base = "http://" +:+ hostport →
                 host = hostport +:+ before "/" (Request.path request))
    ∧ forward_request request w tr
      = (answered name (client_request w (outbound request base host)),
         tr ++ [ClientRequest (outbound request base host)]).
Proof.
  intros Hseg Hbase.
  destruct (SERVICE_URLS_base _ _ Hbase) as (hostport & -> & Hhp).
  destruct (target_host hostport (Request.path request) Hhp) as (authority & Ha & Hh).
  exists (hostport +:+ before "/" (Request.path request)). split.
  { intros hp' Heq. by simplify_eq. }
  unfold forward_request, first_segment in *.
  rewrite bool_decide_eq_false_2 by apply split_nonempty.
  unfold mbind, M_bind, bind, getitem. rewrite Hseg. unfold ret at 1. 
  rewrite Hbase.
  unfold try_except_RequestError.
  rewrite <- append_assoc in Ha. rewrite Ha. unfold ret at 1.
  rewrite Hh. unfold ret at 1.
  unfold await_client_request, outbound.
  destruct (client_request w _) as [response|e]; cbn [answered].
  - unfold relayed, json_family, declared_content_type.
    destruct (_ || _); [| done].
    unfold response_json, JSONResponse, of_result.
    destruct (loads _) as [v|]; [| done]. unfold ret. by destruct (dumps v).
  - by destruct e.
Qed.

Lemma handle_in_scope request name base w :
  first_segment (Request.path request) = Some name →
  SERVICE_URLS !! name = Some base →
  ∃ host,
    (∀ hostport, base = "http://" +:+ hostport →
                 host = hostport +:+ before "/" (Request.path request))
    ∧ handle w request
      = (answered name (client_request w (outbound request base host)),
         [ClientRequest (outbound request base host)]).
Proof. intros Hseg Hbase. exact (forward_request_in_scope _ _ _ w [] Hseg Hbase). Qed.

Lemma handle_out_of_scope request name w :
  first_segment (Request.path request) = Some name →
  SERVICE_URLS !! name = None →
  handle w request = (call_next w request, [CallNext request]).
Proof.
  intros Hseg Hnone. unfold handle, forward_request, first_segment in *.
  rewrite bool_decide_eq_false_2 by apply split_nonempty.
  unfold mbind, M_bind, bind, getitem. rewrite Hseg. unfold ret at 1.
  by rewrite Hnone.
Qed.

(** The call the dispatcher made and the answer it gave, for an in-scope
    request: whatever is in the trace is the one outbound call. *)
Lemma handle_in_scope_call request name base w call :
  first_segment (Request.path request) = Some name →
  SERVICE_URLS !! name = Some base →
  ClientRequest call ∈ snd (handle w request) →
  ∃ host,
    (∀ hostport, base = "http://" +:+ hostport →
                 host = hostport +:+ before "/" (Request.path request))
    ∧ call = outbound request base host
    ∧ handle w request = (answered name (client_request w call), [ClientRequest call]).
Proof.
  intros Hseg Hbase Hin.
  destruct (handle_in_scope _ _ _ w Hseg Hbase) as (host & Hhost & Hrun).
  rewrite Hrun in Hin. cbn [snd] in Hin.
  apply list_elem_of_singleton in Hin. injection Hin as ->.
  exists host. by rewrite Hrun.
Qed.

End GatewayFacts.

(** ** The gateway's properties *)

Section Properties.
Context `{JsonCodec}.
Implicit Types (w : World) (request : Request.t) (call : Call.t)
  (response : Backend.t) (out : Response.t) (name base : string).

(** For a request whose first path segment is a key of the routing table
    the dispatcher makes exactly one outbound call; it goes to that key's
    base address, followed by the request path, and is given the
    request's method, its [query_params] object and its body bytes. *)
Lemma outbound_call_arguments w request name base :
  first_segment (Request.path request) = Some name →
  SERVICE_URLS !! name = Some base →
  ∃ call,
    snd (handle w request) = [ClientRequest call]
    ∧ Call.url call = base +:+ Request.path request
    ∧ String.prefix base (Call.url call) = true
    ∧ Call.method call = Request.method request
    ∧ Call.params call = Request.query_params request
    ∧ Call.content call = Request.body request.
Proof.
  intros Hseg Hbase.
  destruct (handle_in_scope _ _ _ w Hseg Hbase) as (host & _ & ->).
  exists (outbound request base host). cbn.
  repeat split; try done. apply prefix_app.
Qed.

(** When the outbound call of an in-scope request fails with a request
    error of [httpx], of whatever class, the dispatcher ends with the 503
    exception whose detail names the service and carries the error's
    text. *)
Lemma transport_failure_raises w request name base call cls message :
  first_segment (Request.path request) = Some name →
  SERVICE_URLS !! name = Some base →
  ClientRequest call ∈ snd (handle w request) →
  client_request w call = Raise (RequestError cls message) →
  ∃ detail,
    fst (handle w request) = Raise (HTTPException 503 detail)
    ∧ detail = "Service " +:+ name +:+ " is unavailable: " +:+ message
    ∧ Py.contains name detail = true
    ∧ Py.contains message detail = true.
Proof.
  intros Hseg Hbase Hin Hfail.
  destruct (handle_in_scope_call _ _ _ _ _ Hseg Hbase Hin) as (host & _ & _ & ->).
  rewrite Hfail. cbn [answered fst]. eexists. split; [done |]. split; [done |].
  split.
  - apply (contains_app name "Service ").
  - replace ("Service " +:+ name +:+ " is unavailable: " +:+ message)
      with (("Service " +:+ name +:+ " is unavailable: ") +:+ message +:+ "")
      by (by rewrite !append_assoc, append_nil_r).
    apply contains_app.
Qed.

(** C5. A request whose first path segment is not a key of the routing
    table makes no outbound call: it is handed, as it came, to the rest of
    the application, whose answer is the dispatcher's. *)
Theorem unrouted_passes_through w request name :
  first_segment (Request.path request) = Some name →
  SERVICE_URLS !! name = None →
  handle w request = (call_next w request, [CallNext request])
  ∧ Forall (λ ev, ∀ call, ev ≠ ClientRequest call) (snd (handle w request)).
Proof.
  intros Hseg Hnone. rewrite (handle_out_of_scope _ _ w Hseg Hnone).
  split; [done |]. by repeat constructor.
Qed.

(** C9. The target of the outbound call is the base address followed by
    the request path as it came, service segment included. *)
Theorem target_url_keeps_path w request name base call :
  first_segment (Request.path request) = Some name →
  SERVICE_URLS !! name = Some base →
  ClientRequest call ∈ snd (handle w request) →
  Call.url call = base +:+ Request.path request.
Proof.
  intros Hseg Hbase Hin.
  by destruct (handle_in_scope_call _ _ _ _ _ Hseg Hbase Hin) as (host & _ & -> & _).
Qed.

(** C10. Stripping the slashes off a path and splitting it on slashes
    always gives at least one piece, so the first one exists and the test
    for an empty list is never true; for the paths ["/"] and [""] the
    first piece is the empty string, which is no key of the routing
    table, and such requests are handed to the rest of the application. *)
Theorem first_segment_always_exists :
  (∀ path, ∃ name rest, Py.split "/" (Py.strip "/" path) = name :: rest)
  ∧ (∀ path, is_Some (first_segment path))
  ∧ (∀ path, bool_decide (Py.split "/" (Py.strip "/" path) = []) = false)
  ∧ first_segment "/" = Some ""
  ∧ first_segment "" = Some ""
  ∧ SERVICE_URLS !! "" = None
  ∧ (∀ w request,
       Request.path request = "/" ∨ Request.path request = "" →
       handle w request = (call_next w request, [CallNext request])).
Proof.
  split; [| split; [| split; [| split; [| split; [| split]]]]]; try done.
  - intros path. pose proof (split_nonempty "/" (Py.strip "/" path)) as Hne.
    destruct (Py.split _ _); [done | by do 2 eexists].
  - apply first_segment_is_Some.
  - intros path. apply bool_decide_eq_false_2, split_nonempty.
  - intros w request Hpath. apply (handle_out_of_scope _ "").
    + by destruct Hpath as [-> | ->].
    + done.
Qed.

(** A content type whose lower-case form starts with one of the two JSON
    media types is JSON-family, whatever parameters follow. *)
Lemma json_family_intro content_type params :
  Py.lower content_type = "application/json" +:+ params
  ∨ Py.lower content_type = "application/problem+json" +:+ params →
  json_family content_type = true.
Proof.
  unfold json_family. intros [-> | ->].
  - by rewrite contains_prefix by apply prefix_app.
  - rewrite (contains_prefix "application/problem+json") by apply prefix_app.
    apply orb_true_r.
Qed.

Example json_family_charset : json_family "Application/JSON; charset=utf-8" = true.
Proof. reflexivity. Qed.

Example json_family_problem : json_family "application/problem+json" = true.
Proof. reflexivity. Qed.

Example json_family_pdf : json_family "application/pdf" = false.
Proof. reflexivity. Qed.

(** The test is by occurrence: a content type that contains one of the two
    names counts as well. *)
Example json_family_occurrence : json_family "application/jsonl" = true.
Proof. reflexivity. Qed.

(** What is relayed carries the backend's headers without the three
    stripped ones, and the backend's status. *)
Lemma relayed_headers response out :
  relayed response = Ok out →
  Response.headers out
  = delete "connection" (delete "transfer-encoding"
      (delete "content-encoding" (Backend.headers response)))
  ∧ Response.status_code out = Backend.status_code response.
Proof.
  unfold relayed, JSONResponse.
  destruct (json_family _); [destruct (loads _); [destruct (dumps _) |] |];
    intros [= <-]; done.
Qed.


(** A decoded value that cannot be rendered ends the dispatcher with the
    error of the rendering: no response is returned. *)
Lemma unrendered_json_raises w request name base call response v :
  first_segment (Request.path request) = Some name →
  SERVICE_URLS !! name = Some base →
  ClientRequest call ∈ snd (handle w request) →
  client_request w call = Ok response →
  json_family (declared_content_type response) = true →
  loads (Backend.content response) = Some v →
  dumps v = None →
  fst (handle w request) = Raise ValueError.
Proof.
  intros Hseg Hbase Hin Hok Hjson Hv Hnone.
  destruct (handle_in_scope_call _ _ _ _ _ Hseg Hbase Hin) as (host & _ & _ & ->).
  rewrite Hok. cbn [answered fst]. unfold relayed, JSONResponse.
  by rewrite Hjson, Hv, Hnone.
Qed.

(** C4. When the backend answers with a content type that does not pass
    the dispatcher's test for JSON (in lower case it has neither
    [application/json] nor [application/problem+json] in it), the
    dispatcher returns the body bytes [httpx] hands over as they are, with
    the backend's status code.  The content type the backend declared
    stays, as it was written, in the headers of the response, which is
    therefore sent with it; when the backend declared none, the media
    type of the response is [application/octet-stream], and the response
    is sent with that. *)
Theorem opaque_body_passes_through w request name base call response :
  first_segment (Request.path request) = Some name →
  SERVICE_URLS !! name = Some base →
  ClientRequest call ∈ snd (handle w request) →
  client_request w call = Ok response →
  json_family (declared_content_type response) = false →
  ∃ out,
    fst (handle w request) = Ok out
    ∧ Response.body out = Backend.content response
    ∧ Response.status_code out = Backend.status_code response
    ∧ Response.headers out !! "content-type" = Backend.headers response !! "content-type"
    ∧ (Backend.headers response !! "content-type" = None →
       Response.media_type out = "application/octet-stream")
    ∧ sent_content_type out
      = default "application/octet-stream" (Backend.headers response !! "content-type").
Proof.
  intros Hseg Hbase Hin Hok Hjson.
  destruct (handle_in_scope_call _ _ _ _ _ Hseg Hbase Hin) as (host & _ & _ & ->).
  rewrite Hok. cbn [answered fst]. unfold relayed. rewrite Hjson.
  eexists. split; [done |]. cbn. split; [done |]. split; [done |].
  unfold sent_content_type, declared_content_type. cbn.
  rewrite !lookup_delete_ne by done.
  by destruct (Backend.headers response !! "content-type").
Qed.

(** The [media_type] given to the response in that case is the declared
    content type in lower case; it only counts when the headers carry no
    content type. *)
Lemma opaque_media_type response out :
  json_family (declared_content_type response) = false →
  relayed response = Ok out →
  Response.media_type out
  = str_or (Py.lower (declared_content_type response)) "application/octet-stream".
Proof. unfold relayed. intros ->. by intros [= <-]. Qed.

(** C6. Whatever response the dispatcher returns for a backend response
    has none of the headers [content-encoding], [transfer-encoding] and
    [connection], and has every other header exactly as the backend
    response has it. *)
Theorem hop_headers_stripped w request name base call response out :
  first_segment (Request.path request) = Some name →
  SERVICE_URLS !! name = Some base →
  ClientRequest call ∈ snd (handle w request) →
  client_request w call = Ok response →
  fst (handle w request) = Ok out →
  (∀ h, h ∈ stripped_headers → Response.headers out !! h = None)
  ∧ (∀ h, h ∉ stripped_headers →
          Response.headers out !! h = Backend.headers response !! h).
Proof.
  intros Hseg Hbase Hin Hok Hout.
  destruct (handle_in_scope_call _ _ _ _ _ Hseg Hbase Hin) as (host & _ & _ & Hrun).
  rewrite Hrun, Hok in Hout. cbn [answered fst] in Hout.
  destruct (relayed_headers _ _ Hout) as [-> _].
  unfold stripped_headers. split; intros h Hh.
  - rewrite !elem_of_cons, elem_of_nil in Hh.
    destruct Hh as [->|[->|[->|[]]]]; by simplify_map_eq.
  - rewrite !not_elem_of_cons in Hh. destruct Hh as (? & ? & ? & _).
    by rewrite !lookup_delete_ne.
Qed.


(** C8. When the backend answers with a JSON-family content type and a
    body that does not decode, the dispatcher fails with the decoder's
    error: it returns no response and raises no HTTP exception. *)
Theorem malformed_json_propagates w request name base call response :
  first_segment (Request.path request) = Some name →
  SERVICE_URLS !! name = Some base →
  ClientRequest call ∈ snd (handle w request) →
  client_request w call = Ok response →
  json_family (declared_content_type response) = true →
  loads (Backend.content response) = None →
  fst (handle w request) = Raise JSONDecodeError
  ∧ (∀ out, fst (handle w request) ≠ Ok out)
  ∧ (∀ status detail, fst (handle w request) ≠ Raise (HTTPException status detail)).
Proof.
  intros Hseg Hbase Hin Hok Hjson Hv.
  destruct (handle_in_scope_call _ _ _ _ _ Hseg Hbase Hin) as (host & _ & _ & ->).
  rewrite Hok. cbn [answered fst]. unfold relayed. by rewrite Hjson, Hv.
Qed.

End Properties.

(** ** The small codec is a codec *)

#[global] Instance mini_json : JsonCodec := {|
  json := MiniJson.value;
  loads := MiniJson.loads;
  dumps := MiniJson.dumps
|}.

Lemma mini_json_round_trip : round_trip (H:=mini_json).
Proof. intros v body. apply MiniJsonFacts.loads_dumps. Qed.

(** ** Scenarios *)

Module Scenario.
Import MiniJson.

Definition text (s : string) : bytes := String.list_byte_of_string (json_text s).

(** [health_check], the handler of [GET /health], as it is answered. *)
Definition health_check : Response.t :=
  Response.make (text "{'status':'healthy'}") 200 "application/json" ∅.

(** The rest of the application: the health endpoint, and a 404 for any
    other path. *)
Definition local_app (request : Request.t) : result Response.t :=
  if String.eqb (Request.method request) "GET" && String.eqb (Request.path request) "/health"
  then Ok health_check
  else Ok (Response.make (text "{'detail':'Not Found'}") 404 "application/json" ∅).

(** [GET /equipment/42?fields=id_equipo&fields=tipo] *)
Definition get_equipment_42 : Request.t :=
  Request.make "GET" "/equipment/42"
    (<["host" := "gateway.example:8000"]> (<["accept" := "application/json"]> ∅))
    [("fields", "id_equipo"); ("fields", "tipo")] [].

(** The equipment service's answer, with headers of its own hop. *)
Definition equipment_42 : Backend.t :=
  Backend.make 200
    (<["content-type" := "application/json"]>
     (<["content-encoding" := "gzip"]>
     (<["transfer-encoding" := "chunked"]>
     (<["connection" := "keep-alive"]>
     (<["server" := "uvicorn"]> ∅)))))
    (text "{'id_equipo':42,'tipo':'Laptop'}").

Definition equipment_up : World :=
  {| call_next := local_app; client_request := λ _, Ok equipment_42 |}.

(** The call that reaches the equipment service. *)
Definition equipment_call : Call.t :=
  outbound get_equipment_42 "http://equipment-service:8001" "equipment-service:8001".

(** The call that reaches the report service. *)
Definition report_call : Call.t :=
  Call.make "GET" "http://report-service:8004/reports/export/pdf"
    (<["host" := "report-service:8004"]> ∅) [] [].

(** The value of that answer. *)
Definition laptop : value := Object [("id_equipo", Int 42); ("tipo", Str "Laptop")].

(** The same answer, written with blanks. *)
Definition equipment_42_spaced : Backend.t :=
  Backend.make 200 (<["content-type" := "Application/JSON; charset=utf-8"]> ∅)
    (text "{ 'id_equipo' : 42, 'tipo' : 'Laptop' }").

Definition equipment_spaced : World :=
  {| call_next := local_app; client_request := λ _, Ok equipment_42_spaced |}.

(** The same answer, with the length of its body declared. *)
Definition equipment_42_sized : Backend.t :=
  Backend.make 200
    (<["content-type" := "application/json"]> (<["content-length" := "39"]> ∅))
    (text "{ 'id_equipo' : 42, 'tipo' : 'Laptop' }").

Definition equipment_sized : World :=
  {| call_next := local_app; client_request := λ _, Ok equipment_42_sized |}.

(** An answer with a number that is not finite. *)
Definition equipment_42_nan : Backend.t :=
  Backend.make 200 (<["content-type" := "application/json"]> ∅)
    (text "{'id_equipo':42,'costo':NaN}").

Definition equipment_nan : World :=
  {| call_next := local_app; client_request := λ _, Ok equipment_42_nan |}.

Definition laptop_nan : value :=
  Object [("id_equipo", Int 42); ("costo", NonFinite NaN)].

(** An answer of two JSON texts, one a line, under the content type of
    such lines. *)
Definition equipment_lines : Backend.t :=
  Backend.make 200 (<["content-type" := "application/jsonl"]> ∅)
    (text ("{'id_equipo':42}" +:+ String "010" "{'id_equipo':43}")).

Definition equipment_jsonl : World :=
  {| call_next := local_app; client_request := λ _, Ok equipment_lines |}.

(** The equipment service cannot be reached. *)
Definition equipment_down : World :=
  {| call_next := local_app;
     client_request := λ _, Raise (RequestError ConnectError "All connection attempts failed") |}.

(** The equipment service answers with a page that is not JSON under a
    JSON content type. *)
Definition equipment_garbled : World :=
  {| call_next := local_app;
     client_request := λ _,
       Ok (Backend.make 502 (<["content-type" := "application/json"]> ∅)
             (String.list_byte_of_string "<html>Bad Gateway</html>")) |}.

(** [GET /reports/export/pdf], answered with the first bytes of a PDF
    file. *)
Definition get_report_pdf : Request.t :=
  Request.make "GET" "/reports/export/pdf"
    (<["host" := "gateway.example:8000"]> ∅) [] [].

Definition report_pdf : Backend.t :=
  Backend.make 200
    (<["content-type" := "application/pdf"]>
     (<["content-disposition" := "attachment; filename=equipment_reports.pdf"]> ∅))
    [Byte.x25; Byte.x50; Byte.x44; Byte.x46; Byte.x2d; Byte.x00; Byte.xff].

Definition reports_up : World :=
  {| call_next := local_app; client_request := λ _, Ok report_pdf |}.

(** A backend that declares no content type. *)
Definition reports_untyped : World :=
  {| call_next := local_app;
     client_request := λ _, Ok (Backend.make 200 ∅ [Byte.x00; Byte.x01]) |}.

Definition get_health : Request.t :=
  Request.make "GET" "/health" (<["host" := "gateway.example:8000"]> ∅) [] [].

Definition get_unknown : Request.t :=
  Request.make "GET" "/unknownprefix/x" (<["host" := "gateway.example:8000"]> ∅) [] [].

End Scenario.

Import Scenario.

(** Scenario: [GET /equipment/42], answered 200 with a JSON body, gives
    status 200 and that JSON body; the headers of the backend's hop are
    gone. *)
Example scenario_equipment_42 :
  handle equipment_up get_equipment_42
  = (Ok (Response.make (text "{'id_equipo':42,'tipo':'Laptop'}") 200 "application/json"
           (<["content-type" := "application/json"]> (<["server" := "uvicorn"]> ∅))),
     [ClientRequest equipment_call]).
Proof. vm_compute. reflexivity. Qed.

Example scenario_equipment_42_value :
  loads (text "{'id_equipo':42,'tipo':'Laptop'}")
  = Some laptop.
Proof. vm_compute. reflexivity. Qed.

(** The body is rendered anew: blanks of the backend's text are gone. *)
Example scenario_equipment_spaced :
  fst (handle equipment_spaced get_equipment_42)
  = Ok (Response.make (text "{'id_equipo':42,'tipo':'Laptop'}") 200 "application/json"
          (<["content-type" := "Application/JSON; charset=utf-8"]> ∅)).
Proof. vm_compute. reflexivity. Qed.

(** Scenario: [GET /unknownprefix/x] makes no outbound call and gets the
    rest of the application's answer. *)
Example scenario_unknown_prefix :
  handle equipment_up get_unknown = (local_app get_unknown, [CallNext get_unknown]).
Proof. vm_compute. reflexivity. Qed.

Example scenario_health :
  handle equipment_down get_health = (Ok health_check, [CallNext get_health]).
Proof. vm_compute. reflexivity. Qed.

(** The length the backend declared for its body stays in the headers of
    a response whose body is rendered anew, here in 32 bytes. *)
Example scenario_content_length_kept :
  ∃ out,
    fst (handle equipment_sized get_equipment_42) = Ok out
    ∧ Response.headers out !! "content-length" = Some "39"
    ∧ length (Response.body out) = 32%nat.
Proof. eexists. vm_compute. repeat split. Qed.

(** A value that is decoded and cannot be rendered. *)
Example scenario_equipment_nan :
  loads (Backend.content equipment_42_nan) = Some laptop_nan
  ∧ dumps laptop_nan = None
  ∧ handle equipment_nan get_equipment_42 = (Raise ValueError, [ClientRequest equipment_call]).
Proof. vm_compute. repeat split. Qed.

(** A PDF export comes back byte for byte under its own content type. *)
Example scenario_report_pdf :
  handle reports_up get_report_pdf
  = (Ok (Response.make (Backend.content report_pdf) 200 "application/pdf"
           (Backend.headers report_pdf)),
     [ClientRequest report_call]).
Proof. vm_compute. reflexivity. Qed.

(** An answer without a content type is sent as a stream of octets. *)
Example scenario_report_untyped :
  fst (handle reports_untyped get_report_pdf)
  = Ok (Response.make [Byte.x00; Byte.x01] 200 "application/octet-stream" ∅).
Proof. vm_compute. reflexivity. Qed.

(** A body that is not JSON under a JSON content type. *)
Example scenario_equipment_garbled :
  handle equipment_garbled get_equipment_42
  = (Raise JSONDecodeError, [ClientRequest equipment_call]).
Proof. vm_compute. reflexivity. Qed.

(** Scenario: the equipment service cannot be reached. *)
Example scenario_equipment_down :
  fst (handle equipment_down get_equipment_42)
  = Raise (HTTPException 503
             "Service equipment is unavailable: All connection attempts failed").
Proof. vm_compute. reflexivity. Qed.

(** ** The properties at the scenarios *)

Ltac evaluate := vm_compute; first [reflexivity | left].

(** C1. At [GET /equipment/42?fields=id_equipo&fields=tipo] the one
    outbound call is given the request's query parameters as [params=],
    and the query that goes out with it has the key [fields] once, with
    its last value: the value [id_equipo] does not reach the backend. *)
Theorem repeated_query_key_sent_once :
  Request.query_params get_equipment_42 = [("fields", "id_equipo"); ("fields", "tipo")]
  ∧ snd (handle equipment_up get_equipment_42) = [ClientRequest equipment_call]
  ∧ Call.params equipment_call = Request.query_params get_equipment_42
  ∧ sent_query equipment_call = [("fields", "tipo")].
Proof. vm_compute. repeat split. Qed.

(** C2. At [GET /equipment/42] with the equipment service out of reach,
    the dispatcher ends with the 503 exception that names the service, and
    the application answers it with status 500 and the text
    [Internal Server Error], which names no service. *)
Theorem unreachable_service_answer :
  client_request equipment_down equipment_call
  = Raise (RequestError ConnectError "All connection attempts failed")
  ∧ fst (handle equipment_down get_equipment_42)
    = Raise (HTTPException 503
               "Service equipment is unavailable: All connection attempts failed")
  ∧ Response.status_code (app_answer (fst (handle equipment_down get_equipment_42))) = 500
  ∧ Response.body (app_answer (fst (handle equipment_down get_equipment_42)))
    = String.list_byte_of_string "Internal Server Error"
  ∧ Py.contains "equipment"
      (String.string_of_list_byte
         (Response.body (app_answer (fst (handle equipment_down get_equipment_42)))))
    = false.
Proof. vm_compute. repeat split. Qed.


(** C4, refuted as it stands: [application/jsonl] is neither of the two
    JSON media types, yet the dispatcher decodes a body declared so; here
    the body is two JSON texts, the decoder fails, and the bytes are not
    passed on. *)
Lemma jsonl_body_is_decoded :
  media_type_of (declared_content_type equipment_lines) = "application/jsonl"
  ∧ json_media_type (declared_content_type equipment_lines) = false
  ∧ client_request equipment_jsonl equipment_call = Ok equipment_lines
  ∧ fst (handle equipment_jsonl get_equipment_42) = Raise JSONDecodeError
  ∧ ¬ ∃ out,
        fst (handle equipment_jsonl get_equipment_42) = Ok out
        ∧ Response.body out = Backend.content equipment_lines.
Proof.
  split; [vm_compute; reflexivity |]. split; [vm_compute; reflexivity |].
  split; [reflexivity |]. split; [vm_compute; reflexivity |].
  intros (out & Hout & _). vm_compute in Hout. discriminate Hout.
Qed.


Lemma opaque_body_passes_through_witness :
  json_family (declared_content_type report_pdf) = false
  ∧ ∃ out,
      fst (handle reports_up get_report_pdf) = Ok out
      ∧ Response.body out = Backend.content report_pdf
      ∧ Response.status_code out = Backend.status_code report_pdf
      ∧ Response.headers out !! "content-type" = Backend.headers report_pdf !! "content-type"
      ∧ (Backend.headers report_pdf !! "content-type" = None →
         Response.media_type out = "application/octet-stream")
      ∧ sent_content_type out
        = default "application/octet-stream" (Backend.headers report_pdf !! "content-type").
Proof.
  split; [evaluate |].
  apply (opaque_body_passes_through (H:=mini_json) reports_up get_report_pdf "reports"
           "http://report-service:8004" report_call report_pdf);
    evaluate.
Defined.

Lemma unrouted_passes_through_witness :
  first_segment (Request.path get_unknown) = Some "unknownprefix"
  ∧ SERVICE_URLS !! "unknownprefix" = None
  ∧ handle equipment_up get_unknown = (call_next equipment_up get_unknown, [CallNext get_unknown])
  ∧ Forall (λ ev, ∀ call, ev ≠ ClientRequest call) (snd (handle equipment_up get_unknown)).
Proof.
  split; [evaluate |]. split; [evaluate |].
  apply (unrouted_passes_through (H:=mini_json) equipment_up get_unknown "unknownprefix"); evaluate.
Defined.

Lemma hop_headers_stripped_witness :
  Backend.headers equipment_42 !! "content-encoding" = Some "gzip"
  ∧ (∀ h, h ∈ stripped_headers →
          Response.headers (Response.make (text "{'id_equipo':42,'tipo':'Laptop'}") 200
            "application/json"
            (<["content-type" := "application/json"]> (<["server" := "uvicorn"]> ∅))) !! h
          = None)
  ∧ (∀ h, h ∉ stripped_headers →
          Response.headers (Response.make (text "{'id_equipo':42,'tipo':'Laptop'}") 200
            "application/json"
            (<["content-type" := "application/json"]> (<["server" := "uvicorn"]> ∅))) !! h
          = Backend.headers equipment_42 !! h).
Proof.
  split; [evaluate |].
  apply (hop_headers_stripped (H:=mini_json) equipment_up get_equipment_42 "equipment"
           "http://equipment-service:8001" equipment_call equipment_42);
    evaluate.
Defined.


Lemma malformed_json_propagates_witness :
  fst (handle equipment_garbled get_equipment_42) = Raise JSONDecodeError
  ∧ (∀ out, fst (handle equipment_garbled get_equipment_42) ≠ Ok out)
  ∧ (∀ status detail,
       fst (handle equipment_garbled get_equipment_42)
       ≠ Raise (HTTPException status detail)).
Proof.
  apply (malformed_json_propagates (H:=mini_json) equipment_garbled get_equipment_42 "equipment"
           "http://equipment-service:8001" equipment_call
           (Backend.make 502 (<["content-type" := "application/json"]> ∅)
              (String.list_byte_of_string "<html>Bad Gateway</html>")));
    evaluate.
Defined.

Lemma target_url_keeps_path_witness :
  Call.url equipment_call = "http://equipment-service:8001" +:+ "/equipment/42".
Proof.
  apply (target_url_keeps_path (H:=mini_json) equipment_up get_equipment_42 "equipment"
           "http://equipment-service:8001" equipment_call);
    evaluate.
Defined.

(** * Further properties of the dispatcher *)

(** ** The path operations *)

(** [s] is made of the character [c] only. *)
Fixpoint only (c : ascii) (s : string) : bool :=
  match s with
  | EmptyString => true
  | String x s' => Ascii.eqb x c && only c s'
  end.

Section PathFacts.
Implicit Types (s t u cur : string) (c x : ascii).
#[local] Arguments String.append !_ _ : simpl nomatch.

Lemma char_in_single x c : Py.char_in x (String c "") = Ascii.eqb x c.
Proof. cbn. apply orb_false_r. Qed.

Lemma before_lacks c s : Py.char_in c (before c s) = false.
Proof.
  induction s as [|x s IH]; [done |]. cbn [before].
  destruct (Ascii.eqb_spec x c) as [->|Hne]; [done |].
  cbn [Py.char_in]. rewrite IH, orb_false_r. by apply Ascii.eqb_neq.
Qed.

Lemma before_snoc c s : before c (s +:+ String c "") = before c s.
Proof.
  induction s as [|x s IH]; cbn.
  - by rewrite Ascii.eqb_refl.
  - destruct (Ascii.eqb x c); [done | by rewrite IH].
Qed.

(** Taking the trailing [c]s off does not touch what stands before the
    first [c]. *)
Lemma before_rstrip c s : before c (Py.rstrip (String c "") s) = before c s.
Proof.
  induction s as [|x s IH]; [done |]. cbn [Py.rstrip before].
  rewrite char_in_single.
  destruct (Ascii.eqb x c) eqn:Hx.
  - destruct (Py.rstrip _ s); cbn [before]; by rewrite ?Hx.
  - rewrite <- IH. destruct (Py.rstrip _ s); cbn [before]; by rewrite Hx.
Qed.

Lemma lstrip_decompose c s :
  ∃ a, s = a +:+ Py.lstrip (String c "") s ∧ only c a = true.
Proof.
  induction s as [|x s (a & Hs & Ha)]; [by exists "" |]. cbn [Py.lstrip].
  rewrite char_in_single. destruct (Ascii.eqb_spec x c) as [->|Hne].
  - exists (String c a). cbn. rewrite Ascii.eqb_refl, Ha. by rewrite <- Hs.
  - by exists "".
Qed.

Lemma rstrip_decompose c s :
  ∃ b, s = Py.rstrip (String c "") s +:+ b ∧ only c b = true.
Proof.
  induction s as [|x s (b & Hs & Hb)]; [by exists "" |]. cbn [Py.rstrip].
  rewrite char_in_single.
  destruct (Py.rstrip (String c "") s) as [|y r] eqn:Hr.
  - destruct (Ascii.eqb_spec x c) as [->|Hne].
    + exists (String c b). cbn. rewrite Ascii.eqb_refl, Hb. by rewrite Hs at 1.
    + exists b. cbn. by rewrite Hs at 1.
  - exists b. cbn. by rewrite Hs at 1.
Qed.

Lemma lstrip_head c s :
  match Py.lstrip (String c "") s with
  | EmptyString => True
  | String x _ => x ≠ c
  end.
Proof.
  induction s as [|x s IH]; [done |]. cbn [Py.lstrip]. rewrite char_in_single.
  by destruct (Ascii.eqb_spec x c).
Qed.

Lemma lstrip_fixed c s :
  match s with EmptyString => True | String x _ => x ≠ c end →
  Py.lstrip (String c "") s = s.
Proof.
  destruct s as [|x s]; [done |]. intros Hx. cbn [Py.lstrip].
  rewrite char_in_single. by rewrite (proj2 (Ascii.eqb_neq x c)).
Qed.

Lemma rstrip_head c s :
  match s with EmptyString => True | String x _ => x ≠ c end →
  match Py.rstrip (String c "") s with EmptyString => True | String x _ => x ≠ c end.
Proof.
  destruct s as [|x s]; [done |]. intros Hx. cbn [Py.rstrip].
  rewrite char_in_single, (proj2 (Ascii.eqb_neq x c)) by done.
  by destruct (Py.rstrip _ s).
Qed.

Lemma rstrip_cons chars x s :
  Py.rstrip chars (String x s)
  = match Py.rstrip chars s with
    | EmptyString => if Py.char_in x chars then EmptyString else String x EmptyString
    | r => String x r
    end.
Proof. reflexivity. Qed.

Lemma rstrip_idempotent c s :
  Py.rstrip (String c "") (Py.rstrip (String c "") s) = Py.rstrip (String c "") s.
Proof.
  induction s as [|x s IH]; [done |]. cbn [Py.rstrip]. rewrite char_in_single.
  destruct (Py.rstrip (String c "") s) as [|y r] eqn:Hr.
  - destruct (Ascii.eqb x c) eqn:Hx; [done |]. cbn. by rewrite Hx.
  - by rewrite rstrip_cons, IH.
Qed.

Lemma rstrip_end c s : ends_with c (Py.rstrip (String c "") s) = false.
Proof.
  induction s as [|x s IH]; [done |]. rewrite rstrip_cons, char_in_single.
  destruct (Py.rstrip (String c "") s) as [|y r].
  - by destruct (Ascii.eqb x c) eqn:Hx; cbn; rewrite ?Hx.
  - exact IH.
Qed.

Lemma head_not_prefix c s :
  match s with EmptyString => True | String x _ => x ≠ c end →
  String.prefix (String c "") s = false.
Proof.
  destruct s as [|x s]; [done |]. intros Hx. cbn [String.prefix].
  destruct (ascii_dec c x) as [->|]; [done | done].
Qed.

Lemma concat_cons sep a l :
  l ≠ [] → String.concat sep (a :: l) = a +:+ sep +:+ String.concat sep l.
Proof. by destruct l. Qed.

Lemma split_char_join c cur s :
  String.concat (String c "") (Py.split_from (String c "") 0 cur s) = cur +:+ s.
Proof.
  revert cur. induction s as [|x s IH]; intros cur; cbn [Py.split_from].
  - cbn. by rewrite append_nil_r.
  - cbn [String.prefix]. destruct (ascii_dec c x) as [<-|Hne].
    + destruct s; cbn [String.prefix String.length Nat.pred];
        rewrite concat_cons by apply split_from_nonempty; by rewrite IH.
    + rewrite IH. apply append_snoc.
Qed.

Lemma split_char_pieces c cur s :
  Py.char_in c cur = false →
  Forall (λ piece, Py.char_in c piece = false) (Py.split_from (String c "") 0 cur s).
Proof.
  revert cur. induction s as [|x s IH]; intros cur Hcur; cbn [Py.split_from].
  - by constructor.
  - cbn [String.prefix]. destruct (ascii_dec c x) as [<-|Hne].
    + destruct s; cbn [String.prefix String.length Nat.pred];
        constructor; try done; by apply IH.
    + apply IH. clear IH. induction cur as [|y cur IHc]; cbn in *.
      * rewrite orb_false_r. by apply Ascii.eqb_neq.
      * apply orb_false_elim in Hcur as [-> Hcur]. by rewrite IHc.
Qed.

Lemma lower_app s t : Py.lower (s +:+ t) = Py.lower s +:+ Py.lower t.
Proof. induction s as [|x s IH]; [done |]. cbn. by rewrite IH. Qed.

Lemma before_rest c s : ∃ rest, s = before c s +:+ rest.
Proof.
  induction s as [|x s [rest IH]]; [by exists "" |]. cbn [before].
  destruct (Ascii.eqb x c).
  - by eexists.
  - exists rest. cbn. by rewrite <- IH.
Qed.

(** The media type a content type names stands in the content type, in
    lower case. *)
Lemma media_type_occurs content_type :
  Py.contains (media_type_of content_type) (Py.lower content_type) = true.
Proof.
  unfold media_type_of, Py.strip.
  destruct (before_rest ";" content_type) as (rest & Hrest).
  destruct (lstrip_decompose " " (before ";" content_type)) as (a & Ha & _).
  destruct (rstrip_decompose " " (Py.lstrip " " (before ";" content_type))) as (b & Hb & _).
  rewrite Hrest at 2. rewrite Ha at 2. rewrite Hb at 2.
  rewrite !lower_app, !append_assoc. apply contains_app.
Qed.

(** A content type of the JSON family passes the dispatcher's test. *)
Lemma json_media_type_family content_type :
  json_media_type content_type = true → json_family content_type = true.
Proof.
  unfold json_media_type, json_family. intros Hm.
  pose proof (media_type_occurs content_type) as Hin.
  apply orb_true_iff in Hm as [Hm|Hm]; apply String.eqb_eq in Hm;
    rewrite Hm in Hin; rewrite Hin; [done | apply orb_true_r].
Qed.

End PathFacts.

Section PathProperties.
Implicit Types (path rest : string).
#[local] Arguments String.append !_ _ : simpl nomatch.

Lemma before_lstrip_snoc c s :
  before c (Py.lstrip (String c "") (s +:+ String c ""))
  = before c (Py.lstrip (String c "") s).
Proof.
  induction s as [|x s IH].
  - cbn. by rewrite Ascii.eqb_refl.
  - change (String x s +:+ String c "") with (String x (s +:+ String c "")).
    cbn [Py.lstrip]. rewrite char_in_single.
    destruct (Ascii.eqb x c); [done |].
    change (String x (s +:+ String c "")) with (String x s +:+ String c "").
    apply before_snoc.
Qed.

(** X1. The first segment of a path is what stands between its leading
    slashes and the next slash; it holds no slash. *)
Theorem first_segment_spec path :
  first_segment path = Some (before "/" (Py.lstrip "/" path))
  ∧ Py.char_in "/" (before "/" (Py.lstrip "/" path)) = false.
Proof.
  split; [| apply before_lacks].
  unfold first_segment, Py.strip, Py.split.
  by rewrite split_char_head, before_rstrip.
Qed.

(** X2. One more slash in front of a path, or one more at its end, does
    not change its first segment. *)
Theorem first_segment_ignores_outer_slashes path :
  first_segment ("/" +:+ path) = first_segment path
  ∧ first_segment (path +:+ "/") = first_segment path.
Proof.
  split.
  - by rewrite !(proj1 (first_segment_spec _)).
  - rewrite !(proj1 (first_segment_spec _)). by rewrite before_lstrip_snoc.
Qed.

(** X3. The pieces of a path hold no slash, and joined again with slashes
    they give the stripped path. *)
Theorem path_parts_join path :
  String.concat "/" (Py.split "/" (Py.strip "/" path)) = Py.strip "/" path
  ∧ Forall (λ piece, Py.char_in "/" piece = false) (Py.split "/" (Py.strip "/" path)).
Proof.
  split.
  - unfold Py.split. by rewrite split_char_join.
  - by apply split_char_pieces.
Qed.

(** X4. Stripping takes slashes only, from the two ends, and takes them
    all: the path is slashes, the stripped path, slashes; the stripped
    path neither starts nor ends with a slash, and stripping again changes
    nothing. *)
Theorem strip_takes_outer_slashes path :
  ∃ a b,
    path = a +:+ Py.strip "/" path +:+ b
    ∧ only "/" a = true ∧ only "/" b = true
    ∧ String.prefix "/" (Py.strip "/" path) = false
    ∧ ends_with "/" (Py.strip "/" path) = false
    ∧ Py.strip "/" (Py.strip "/" path) = Py.strip "/" path.
Proof.
  destruct (lstrip_decompose "/" path) as (a & Ha & Hoa).
  destruct (rstrip_decompose "/" (Py.lstrip "/" path)) as (b & Hb & Hob).
  exists a, b. unfold Py.strip. split; [by rewrite <- Hb |]. split; [done |].
  split; [done |].
  split; [apply head_not_prefix, rstrip_head, lstrip_head |].
  split; [apply rstrip_end |].
  rewrite lstrip_fixed by apply rstrip_head, lstrip_head.
  apply rstrip_idempotent.
Qed.

End PathProperties.

(** ** Routing and relaying *)

Section RoutingFacts.
Implicit Types (path rest name : string).
#[local] Arguments String.append !_ _ : simpl nomatch.

Lemma before_slash_rest rest :
  rest = "" ∨ String.prefix "/" rest = true → before "/" rest = "".
Proof.
  intros [-> | Hp]; [done |]. by destruct (prefix_char _ _ Hp) as [t ->].
Qed.

Lemma first_segment_prefixed name rest :
  name ≠ "" → Py.char_in "/" name = false →
  rest = "" ∨ String.prefix "/" rest = true →
  first_segment ("/" +:+ name +:+ rest) = Some name.
Proof.
  intros Hne Hname Hrest. rewrite (proj1 (first_segment_spec _)).
  change (Py.lstrip "/" ("/" +:+ name +:+ rest)) with (Py.lstrip "/" (name +:+ rest)).
  rewrite lstrip_fixed.
  - by rewrite before_app, before_slash_rest, append_nil_r.
  - destruct name as [|x name]; [done |].
    change (String x name +:+ rest) with (String x (name +:+ rest)).
    cbn [Py.char_in] in Hname.
    apply orb_false_elim in Hname as [Hx _]. apply Ascii.eqb_neq in Hx. congruence.
Qed.

(** The keys of the routing table are plain names. *)
Lemma SERVICE_URLS_key_plain name :
  is_Some (SERVICE_URLS !! name) → name ≠ "" ∧ Py.char_in "/" name = false.
Proof.
  intros Hk. apply SERVICE_URLS_keys in Hk.
  rewrite !elem_of_cons, elem_of_nil in Hk.
  by destruct Hk as [->|[->|[->|[->|[]]]]].
Qed.

End RoutingFacts.

Section RoutingProperties.
Context `{JsonCodec}.
Implicit Types (w : World) (request : Request.t) (call : Call.t)
  (response : Backend.t) (out : Response.t) (name base : string).

(** X5. Whatever the request that has arrived and whatever the callees
    answer, the dispatcher hands it on exactly once: to the rest of the
    application, as it came, or to a backend in one outbound call; never
    to both, never twice. *)
Theorem one_call_onward_per_request w request :
  length (snd (handle w request)) = 1%nat
  ∧ (snd (handle w request) = [CallNext request]
     ∨ ∃ call, snd (handle w request) = [ClientRequest call]).
Proof.
  destruct (first_segment_is_Some (Request.path request)) as [name Hseg].
  destruct (SERVICE_URLS !! name) as [base|] eqn:Hbase.
  - destruct (handle_in_scope _ _ _ w Hseg Hbase) as (host & _ & ->).
    split; [done |]. right. by eexists.
  - rewrite (handle_out_of_scope _ _ w Hseg Hbase). split; [done | by left].
Qed.

(** X6. A request is forwarded exactly when its first segment is one of
    the four service names, compared as written: no other prefix, and no
    other spelling of these, leads to an outbound call. *)
Theorem forwarded_iff_key w request :
  (∃ call, ClientRequest call ∈ snd (handle w request))
  ↔ ∃ name, first_segment (Request.path request) = Some name
            ∧ name ∈ ["equipment"; "providers"; "maintenance"; "reports"].
Proof.
  destruct (first_segment_is_Some (Request.path request)) as [name Hseg].
  destruct (SERVICE_URLS !! name) as [base|] eqn:Hbase.
  - destruct (handle_in_scope _ _ _ w Hseg Hbase) as (host & _ & ->).
    split; intros _.
    + exists name. split; [done |]. apply SERVICE_URLS_keys. by eexists.
    + eexists. cbn. apply list_elem_of_singleton. reflexivity.
  - rewrite (handle_out_of_scope _ _ w Hseg Hbase). cbn. split.
    + intros [call Hin]. by apply list_elem_of_singleton in Hin.
    + intros (name' & Hseg' & Hk). rewrite Hseg in Hseg'. injection Hseg' as <-.
      apply SERVICE_URLS_keys in Hk as [? Hk]. congruence.
Qed.

(** X7. Every path made of a slash, a service name and then nothing or a
    slash and anything is forwarded to that service, at the same path:
    the paths the pages of the front end ask for, and the routes the
    services declare under their own name, are all of this form. *)
Theorem prefix_routing w request name base rest :
  SERVICE_URLS !! name = Some base →
  rest = "" ∨ String.prefix "/" rest = true →
  Request.path request = "/" +:+ name +:+ rest →
  ∃ call,
    snd (handle w request) = [ClientRequest call]
    ∧ Call.url call = base +:+ "/" +:+ name +:+ rest.
Proof.
  intros Hbase Hrest Hpath.
  destruct (SERVICE_URLS_key_plain name) as [Hne Hplain]; [by eexists |].
  assert (first_segment (Request.path request) = Some name) as Hseg.
  { rewrite Hpath. by apply first_segment_prefixed. }
  destruct (handle_in_scope _ _ _ w Hseg Hbase) as (host & _ & ->).
  eexists. split; [done |]. cbn. by rewrite Hpath.
Qed.

(** X8. An exception of the outbound call that is no [httpx.RequestError]
    is not turned into the 503 answer: it leaves the dispatcher as it
    is. *)
Theorem other_errors_propagate w request name base call e :
  first_segment (Request.path request) = Some name →
  SERVICE_URLS !! name = Some base →
  ClientRequest call ∈ snd (handle w request) →
  client_request w call = Raise e →
  (∀ cls message, e ≠ RequestError cls message) →
  fst (handle w request) = Raise e.
Proof.
  intros Hseg Hbase Hin Hfail Hother.
  destruct (handle_in_scope_call _ _ _ _ _ Hseg Hbase Hin) as (host & _ & _ & ->).
  rewrite Hfail. cbn [answered fst]. destruct e; try done. by destruct (Hother cls message).
Qed.

(** X9. Once the backend has answered, whatever its status code, the
    dispatcher raises no HTTP exception: it returns a response with the
    backend's status code, or ends with the decoder's error, or with the
    error of the rendering. *)
Theorem answered_call_is_relayed w request name base call response :
  first_segment (Request.path request) = Some name →
  SERVICE_URLS !! name = Some base →
  ClientRequest call ∈ snd (handle w request) →
  client_request w call = Ok response →
  (fst (handle w request) = Raise JSONDecodeError
   ∨ fst (handle w request) = Raise ValueError
   ∨ ∃ out, fst (handle w request) = Ok out
            ∧ Response.status_code out = Backend.status_code response)
  ∧ (∀ status detail, fst (handle w request) ≠ Raise (HTTPException status detail)).
Proof.
  intros Hseg Hbase Hin Hok.
  destruct (handle_in_scope_call _ _ _ _ _ Hseg Hbase Hin) as (host & _ & _ & ->).
  rewrite Hok. cbn [answered fst]. unfold relayed, JSONResponse.
  destruct (json_family _); [destruct (loads _) as [v|]; [destruct (dumps v) |] |];
    (split; [| done]); [do 2 right | right; left | left | do 2 right];
    done || by eexists.
Qed.

(** A JSON-family content type is one the backend declared. *)
Lemma json_family_declared response :
  json_family (declared_content_type response) = true →
  Backend.headers response !! "content-type" = Some (declared_content_type response).
Proof.
  unfold declared_content_type.
  by destruct (Backend.headers response !! "content-type").
Qed.

(** X10. A JSON response is built with the media type [application/json],
    but its headers keep the content type the backend declared, a problem
    document's included, and it is sent with that one.  This holds of
    every response returned for such an answer, and one is returned
    whenever the decoded body can be rendered. *)
Theorem json_keeps_content_type w request name base call response v :
  first_segment (Request.path request) = Some name →
  SERVICE_URLS !! name = Some base →
  ClientRequest call ∈ snd (handle w request) →
  client_request w call = Ok response →
  json_family (declared_content_type response) = true →
  loads (Backend.content response) = Some v →
  (∀ out,
     fst (handle w request) = Ok out →
     Response.media_type out = "application/json"
     ∧ Response.headers out !! "content-type" = Some (declared_content_type response)
     ∧ sent_content_type out = declared_content_type response)
  ∧ (∀ body,
       dumps v = Some body →
       ∃ out,
         fst (handle w request) = Ok out
         ∧ Response.body out = body
         ∧ Response.media_type out = "application/json"
         ∧ Response.headers out !! "content-type" = Some (declared_content_type response)
         ∧ sent_content_type out = declared_content_type response).
Proof.
  intros Hseg Hbase Hin Hok Hjson Hv.
  destruct (handle_in_scope_call _ _ _ _ _ Hseg Hbase Hin) as (host & _ & _ & ->).
  rewrite Hok. cbn [answered fst]. unfold relayed, JSONResponse. rewrite Hjson, Hv.
  assert (∀ body,
            let out := Response.make body (Backend.status_code response) "application/json"
                         (delete "connection" (delete "transfer-encoding"
                            (delete "content-encoding" (Backend.headers response)))) in
            Response.media_type out = "application/json"
            ∧ Response.headers out !! "content-type" = Some (declared_content_type response)
            ∧ sent_content_type out = declared_content_type response) as Hkeeps.
  { intros body. cbn. split; [done |]. unfold sent_content_type. cbn.
    rewrite !lookup_delete_ne by done.
    by rewrite (json_family_declared _ Hjson). }
  split.
  - intros out. destruct (dumps v) as [body|]; [| done]. intros [= <-]. apply Hkeeps.
  - intros body ->. eexists. split; [done |]. split; [done |]. apply Hkeeps.
Qed.

(** X11. For any in-scope path the [host] header is the host and port of
    the base address followed by what the path has before its first
    slash: nothing when the path starts with a slash, the service name
    when it does not. *)
Theorem host_header_general w request name hostport call :
  first_segment (Request.path request) = Some name →
  SERVICE_URLS !! name = Some ("http://" +:+ hostport) →
  ClientRequest call ∈ snd (handle w request) →
  Call.headers call !! "host"
  = Some (hostport +:+ before "/" (Request.path request))
  ∧ (String.prefix "/" (Request.path request) = false →
     Call.headers call !! "host" = Some (hostport +:+ name)).
Proof.
  intros Hseg Hbase Hin.
  destruct (handle_in_scope_call _ _ _ _ _ Hseg Hbase Hin) as (host & Hhost & -> & _).
  rewrite (Hhost hostport eq_refl). cbn. rewrite lookup_insert_eq.
  split; [done |]. intros Hslash. do 2 f_equal.
  rewrite (proj1 (first_segment_spec _)) in Hseg. injection Hseg as <-.
  rewrite lstrip_fixed; [done |].
  destruct (Request.path request) as [|x t]; [done |].
  cbn in Hslash. destruct (ascii_dec "/" x) as [<-|]; [by destruct t | congruence].
Qed.

End RoutingProperties.

(** * The pages' calls to the gateway ([frontend/views]) *)

(** [str(n)] and [{n}] in an f-string, for an [int]. *)
Definition str_int (n : Z) : string :=
  DecimalString.NilEmpty.string_of_int (Z.to_int n).

(** [{x}] in an f-string, for the result of [os.getenv]. *)
Definition fmt_env (x : option string) : string := default "None" x.

Module Frontend.

(** A [requests.Response], with what the pages read of it. *)
Record HttpResponse : Type := {
  status_code : Z;
  content : bytes
}.

(** [st.error], [st.warning] and [st.success]. *)
Inductive level : Type := Error | Warning | Success.

(** What a page function does to the outside, in order. *)
Inductive event (P : Type) : Type :=
  | Get (url : string) (timeout : option Z)     (* requests.get(url, timeout=...) *)
  | Post (url : string) (payload : P)           (* requests.post(url, json=payload) *)
  | Show (l : level) (message : string).        (* st.error(...), st.warning(...), st.success(...) *)
Arguments Get {P} url timeout.
Arguments Post {P} url payload.
Arguments Show {P} l message.

(** The libraries around the pages.  An exception is kept as its text,
    [str(exc)], the only thing the pages read of it.  [J] is the type of
    decoded JSON values, [P] the one of payloads. *)
Record Env (J P : Type) : Type := {
  BASE_URL : option string;                            (* os.getenv("API_GATEWAY_URL") *)
  requests_get : string → option Z → string + HttpResponse;
  requests_post : string → P → string + HttpResponse;
  HTTPError : HttpResponse → string;                   (* the error of raise_for_status() *)
  json_of : bytes → string + J;                        (* response.json(), or its error *)
  empty_list : J;                                      (* [] *)
  none : J                                             (* None *)
}.
Arguments BASE_URL {J P} _.
Arguments requests_get {J P} _ _ _.
Arguments requests_post {J P} _ _ _.
Arguments HTTPError {J P} _ _.
Arguments json_of {J P} _ _.
Arguments empty_list {J P} _.
Arguments none {J P} _.

(** A page function: from the events so far to a value or an exception,
    and the events after. *)
Definition F (P A : Type) : Type := list (event P) → (string + A) * list (event P).

Section Pages.
Context {J P : Type} (env : Env J P).

Definition f_ret {A} (a : A) : F P A := λ tr, (inr a, tr).
Definition f_raise {A} (exc : string) : F P A := λ tr, (inl exc, tr).
Definition f_bind {A B} (m : F P A) (k : A → F P B) : F P B :=
  λ tr, match m tr with
        | (inr a, tr') => k a tr'
        | (inl exc, tr') => (inl exc, tr')
        end.

#[local] Notation "x ← m ; k" := (f_bind m (λ x, k))
  (at level 20, m at level 100, k at level 200, only parsing).

(** [try: body except Exception as exc: handler] *)
Definition f_try {A} (body : F P A) (handler : string → F P A) : F P A :=
  λ tr, match body tr with
        | (inl exc, tr') => handler exc tr'
        | r => r
        end.

Definition get (url : string) (timeout : option Z) : F P HttpResponse :=
  λ tr, (requests_get env url timeout, tr ++ [Get url timeout]).

Definition post (url : string) (payload : P) : F P HttpResponse :=
  λ tr, (requests_post env url payload, tr ++ [Post url payload]).

Definition st (l : level) (message : string) : F P unit :=
  λ tr, (inr tt, tr ++ [Show l message]).

(** [response.raise_for_status()]: an error for the statuses from 400 to
    599. *)
Definition raise_for_status (response : HttpResponse) : F P unit :=
  if (400 <=? status_code response) && (status_code response <? 600)
  then f_raise (HTTPError env response)
  else f_ret tt.

(** [response.json()] *)
Definition json (response : HttpResponse) : F P J :=
  match json_of env (content response) with
  | inl exc => f_raise exc
  | inr data => f_ret data
  end.

(** [equipos.py] *)

Definition _fetch_equipment : F P J :=
  f_try
    (response ← get (fmt_env (BASE_URL env) +:+ "/equipment/") (Some 10);
     _ ← raise_for_status response;
     json response)
    (λ exc,
       _ ← st Error ("No se pudieron cargar los equipos: " +:+ exc);
       f_ret (empty_list env)).

Definition _fetch_equipment_detail (equipment_id : Z) : F P J :=
  f_try
    (response ← get (fmt_env (BASE_URL env) +:+ "/equipment/" +:+ str_int equipment_id)
                    (Some 10);
     _ ← raise_for_status response;
     json response)
    (λ exc,
       _ ← st Error ("No se pudo cargar el detalle del equipo #"
                     +:+ str_int equipment_id +:+ ": " +:+ exc);
       f_ret (none env)).

Definition _fetch_equipment_movements (equipment_id : Z) : F P J :=
  f_try
    (response ← get (fmt_env (BASE_URL env) +:+ "/equipment/" +:+ str_int equipment_id
                     +:+ "/movements/") (Some 10);
     _ ← raise_for_status response;
     json response)
    (λ exc,
       _ ← st Warning ("No se pudo cargar el historial de movimientos: " +:+ exc);
       f_ret (empty_list env)).

Definition _fetch_equipment_purchases (equipment_id : Z) : F P J :=
  f_try
    (response ← get (fmt_env (BASE_URL env) +:+ "/equipment/" +:+ str_int equipment_id
                     +:+ "/purchases/") (Some 10);
     _ ← raise_for_status response;
     json response)
    (λ exc,
       _ ← st Warning ("No se pudo cargar el historial de compras: " +:+ exc);
       f_ret (empty_list env)).

Definition _fetch_locations : F P J :=
  f_try
    (response ← get (fmt_env (BASE_URL env) +:+ "/equipment/locations/") (Some 10);
     _ ← raise_for_status response;
     json response)
    (λ exc,
       _ ← st Warning ("No se pudieron cargar las ubicaciones: " +:+ exc);
       f_ret (empty_list env)).

(** [mantenimiento.py] *)

Definition _fetch_maintenance : F P J :=
  f_try
    (response ← get (fmt_env (BASE_URL env) +:+ "/maintenance/") None;
     _ ← raise_for_status response;
     json response)
    (λ exc,
       _ ← st Error ("No se pudieron cargar los mantenimientos: " +:+ exc);
       f_ret (empty_list env)).

Definition _fetch_maintenance_spare_parts (maintenance_id : Z) : F P J :=
  f_try
    (response ← get (fmt_env (BASE_URL env) +:+ "/maintenance/" +:+ str_int maintenance_id
                     +:+ "/spare-parts/") None;
     _ ← raise_for_status response;
     json response)
    (λ exc,
       _ ← st Warning ("No se pudieron cargar los repuestos del mantenimiento #"
                       +:+ str_int maintenance_id +:+ ": " +:+ exc);
       f_ret (empty_list env)).

Definition _create_maintenance (payload : P) : F P unit :=
  f_try
    (response ← post (fmt_env (BASE_URL env) +:+ "/maintenance/") payload;
     if bool_decide (status_code response ∈ [200; 201])
     then st Success "✅ Mantenimiento registrado correctamente."
     else st Error ("No se pudo registrar el mantenimiento. Código: "
                    +:+ str_int (status_code response)))
    (λ exc, st Error ("Error de conexión: " +:+ exc)).

(** [proveedores.py] *)

Definition _fetch_providers : F P J :=
  f_try
    (response ← get (fmt_env (BASE_URL env) +:+ "/providers/") None;
     _ ← raise_for_status response;
     json response)
    (λ exc,
       _ ← st Error ("No se pudieron cargar los proveedores: " +:+ exc);
       f_ret (empty_list env)).

Definition _fetch_provider_contracts (provider_id : Z) : F P J :=
  f_try
    (response ← get (fmt_env (BASE_URL env) +:+ "/providers/" +:+ str_int provider_id
                     +:+ "/contracts") None;
     _ ← raise_for_status response;
     json response)
    (λ exc,
       _ ← st Warning ("No se pudieron cargar los contratos: " +:+ exc);
       f_ret (empty_list env)).

Definition _fetch_provider_purchases (provider_id : Z) : F P J :=
  f_try
    (response ← get (fmt_env (BASE_URL env) +:+ "/providers/" +:+ str_int provider_id
                     +:+ "/purchases") None;
     _ ← raise_for_status response;
     json response)
    (λ exc,
       _ ← st Warning ("No se pudieron cargar las compras: " +:+ exc);
       f_ret (empty_list env)).

End Pages.
End Frontend.

(** ** What the pages' fetchers keep to *)

Module FrontendFacts.
Import Frontend.

(** The fetchers, each with the address it asks for, its timeout, the
    kind and the start of the message it shows on failure, and the value
    it then returns. *)
Definition catalogue {J P} (env : Env J P) (equipment_id maintenance_id provider_id : Z)
    : list (F P J * (string * option Z * level * string * J)) :=
  let base := fmt_env (BASE_URL env) in
  [ (_fetch_equipment env,
     (base +:+ "/equipment/", Some 10, Error,
      "No se pudieron cargar los equipos: ", empty_list env));
    (_fetch_equipment_detail env equipment_id,
     (base +:+ "/equipment/" +:+ str_int equipment_id, Some 10, Error,
      "No se pudo cargar el detalle del equipo #" +:+ str_int equipment_id +:+ ": ",
      none env));
    (_fetch_equipment_movements env equipment_id,
     (base +:+ "/equipment/" +:+ str_int equipment_id +:+ "/movements/", Some 10, Warning,
      "No se pudo cargar el historial de movimientos: ", empty_list env));
    (_fetch_equipment_purchases env equipment_id,
     (base +:+ "/equipment/" +:+ str_int equipment_id +:+ "/purchases/", Some 10, Warning,
      "No se pudo cargar el historial de compras: ", empty_list env));
    (_fetch_locations env,
     (base +:+ "/equipment/locations/", Some 10, Warning,
      "No se pudieron cargar las ubicaciones: ", empty_list env));
    (_fetch_maintenance env,
     (base +:+ "/maintenance/", None, Error,
      "No se pudieron cargar los mantenimientos: ", empty_list env));
    (_fetch_maintenance_spare_parts env maintenance_id,
     (base +:+ "/maintenance/" +:+ str_int maintenance_id +:+ "/spare-parts/", None, Warning,
      "No se pudieron cargar los repuestos del mantenimiento #"
      +:+ str_int maintenance_id +:+ ": ", empty_list env));
    (_fetch_providers env,
     (base +:+ "/providers/", None, Error,
      "No se pudieron cargar los proveedores: ", empty_list env));
    (_fetch_provider_contracts env provider_id,
     (base +:+ "/providers/" +:+ str_int provider_id +:+ "/contracts", None, Warning,
      "No se pudieron cargar los contratos: ", empty_list env));
    (_fetch_provider_purchases env provider_id,
     (base +:+ "/providers/" +:+ str_int provider_id +:+ "/purchases", None, Warning,
      "No se pudieron cargar las compras: ", empty_list env)) ].

(** The text of the exception the three tried statements end with, if
    they do. *)
Definition failure {J P} (env : Env J P) (url : string) (timeout : option Z)
    : option string :=
  match requests_get env url timeout with
  | inl exc => Some exc
  | inr response =>
      if (400 <=? status_code response) && (status_code response <? 600)
      then Some (HTTPError env response)
      else match json_of env (content response) with
           | inl exc => Some exc
           | inr _ => None
           end
  end.

Section FetcherFacts.
Context {J P : Type} (env : Env J P).
Implicit Types (url message : string) (timeout : option Z) (l : level) (fallback : J).
#[local] Arguments String.append !_ _ : simpl nomatch.

Lemma entry_eq {A B C D E G} (a a' : A) (b b' : B) (c c' : C) (d d' : D)
    (e e' : E) (g g' : G) :
  (a, (b, c, d, e, g)) = (a', (b', c', d', e', g')) →
  a = a' ∧ b = b' ∧ c = c' ∧ d = d' ∧ e = e' ∧ g = g'.
Proof. by intros [= -> -> -> -> -> ->]. Qed.

(** Every fetcher is the same three tried statements and the same
    handler, up to its entry in the catalogue. *)
Lemma catalogue_run equipment_id maintenance_id provider_id
    (run : F P J) url timeout l message fallback :
  (run, (url, timeout, l, message, fallback))
    ∈ catalogue env equipment_id maintenance_id provider_id →
  run []
  = match requests_get env url timeout with
    | inl exc => (inr fallback, [Get url timeout; Show l (message +:+ exc)])
    | inr response =>
        if (400 <=? status_code response) && (status_code response <? 600)
        then (inr fallback,
              [Get url timeout; Show l (message +:+ HTTPError env response)])
        else match json_of env (content response) with
             | inl exc => (inr fallback, [Get url timeout; Show l (message +:+ exc)])
             | inr data => (inr data, [Get url timeout])
             end
    end.
Proof.
  unfold catalogue. rewrite !elem_of_cons, elem_of_nil.
  intros Hin.
  repeat (destruct Hin as [Hin | Hin];
          [apply entry_eq in Hin as (-> & -> & -> & -> & -> & ->);
           cbv [_fetch_equipment _fetch_equipment_detail _fetch_equipment_movements
                _fetch_equipment_purchases _fetch_locations _fetch_maintenance
                _fetch_maintenance_spare_parts _fetch_providers
                _fetch_provider_contracts _fetch_provider_purchases
                f_try f_bind get raise_for_status json st f_ret f_raise];
           cbn [app];
           destruct (requests_get env _ _) as [exc|response];
           [by rewrite ?append_assoc |];
           destruct ((400 <=? status_code response) && (status_code response <? 600));
           [by rewrite ?append_assoc |];
           destruct (json_of env (content response));
           by rewrite ?append_assoc |]).
  done.
Qed.

(** X12. A fetcher never raises and asks exactly once: it ends with the
    decoded answer and nothing shown, or with its fallback value ([[]],
    or [None] for the detail of an equipment) and one message, which
    starts as the catalogue says. *)
Theorem fetchers_contract equipment_id maintenance_id provider_id
    (run : F P J) url timeout l message fallback :
  (run, (url, timeout, l, message, fallback))
    ∈ catalogue env equipment_id maintenance_id provider_id →
  (∃ data, run [] = (inr data, [Get url timeout]))
  ∨ (∃ exc, run [] = (inr fallback, [Get url timeout; Show l (message +:+ exc)])).
Proof.
  intros Hin. rewrite (catalogue_run _ _ _ _ _ _ _ _ _ Hin).
  destruct (requests_get env url timeout) as [exc|response]; [right; by eexists |].
  destruct (_ && _); [right; by eexists |].
  destruct (json_of env _); [right | left]; by eexists.
Qed.

(** X13. An answer with a status from 400 to 599, such as the gateway's
    503, is a failure for every fetcher: it returns its fallback value
    and shows its message, ended by the text of the status error; the
    body of the answer is not read. *)
Theorem fetchers_fall_back_on_error_status equipment_id maintenance_id provider_id
    (run : F P J) url timeout l message fallback response :
  (run, (url, timeout, l, message, fallback))
    ∈ catalogue env equipment_id maintenance_id provider_id →
  requests_get env url timeout = inr response →
  400 ≤ status_code response < 600 →
  run [] = (inr fallback, [Get url timeout; Show l (message +:+ HTTPError env response)]).
Proof.
  intros Hin Hget [Hlo Hhi]. rewrite (catalogue_run _ _ _ _ _ _ _ _ _ Hin), Hget.
  by rewrite (proj2 (Z.leb_le _ _) Hlo), (proj2 (Z.ltb_lt _ _) Hhi).
Qed.

(** X14. A request that raises, and an answer whose body does not decode,
    are failures as well, with the text of the exception at the end of
    the message. *)
Theorem fetchers_fall_back_on_exception equipment_id maintenance_id provider_id
    (run : F P J) url timeout l message fallback exc :
  (run, (url, timeout, l, message, fallback))
    ∈ catalogue env equipment_id maintenance_id provider_id →
  requests_get env url timeout = inl exc
  ∨ (∃ response,
       requests_get env url timeout = inr response
       ∧ (status_code response < 400 ∨ 600 ≤ status_code response)
       ∧ json_of env (content response) = inl exc) →
  run [] = (inr fallback, [Get url timeout; Show l (message +:+ exc)]).
Proof.
  intros Hin Hfail. rewrite (catalogue_run _ _ _ _ _ _ _ _ _ Hin).
  destruct Hfail as [-> | (response & -> & Hstatus & ->)]; [done |].
  destruct Hstatus as [Hlo | Hhi].
  - by rewrite (proj2 (Z.leb_gt _ _) Hlo).
  - rewrite (proj2 (Z.ltb_ge _ _) Hhi). by rewrite andb_false_r.
Qed.

(** X15. An answer with a status outside 400 to 599 whose body decodes is
    returned decoded, and nothing is shown. *)
Theorem fetchers_return_decoded_answer equipment_id maintenance_id provider_id
    (run : F P J) url timeout l message fallback response data :
  (run, (url, timeout, l, message, fallback))
    ∈ catalogue env equipment_id maintenance_id provider_id →
  requests_get env url timeout = inr response →
  status_code response < 400 ∨ 600 ≤ status_code response →
  json_of env (content response) = inr data →
  run [] = (inr data, [Get url timeout]).
Proof.
  intros Hin Hget Hstatus Hjson.
  rewrite (catalogue_run _ _ _ _ _ _ _ _ _ Hin), Hget, Hjson.
  destruct Hstatus as [Hlo | Hhi].
  - by rewrite (proj2 (Z.leb_gt _ _) Hlo).
  - rewrite (proj2 (Z.ltb_ge _ _) Hhi). by rewrite andb_false_r.
Qed.

(** X16. Registering a maintenance never raises: it posts once and shows
    one message, the success one exactly when the answer has status 200
    or 201; any other status, 204 included, is shown as an error with
    its code. *)
Theorem create_maintenance_reports_status (payload : P) :
  let url := fmt_env (BASE_URL env) +:+ "/maintenance/" in
  ∃ l message,
    _create_maintenance env payload [] = (inr tt, [Post url payload; Show l message])
    ∧ (l = Success ↔
       ∃ response, requests_post env url payload = inr response
                   ∧ status_code response ∈ [200; 201])
    ∧ (∀ response,
         requests_post env url payload = inr response →
         status_code response ∉ [200; 201] →
         l = Error
         ∧ message = "No se pudo registrar el mantenimiento. Código: "
                     +:+ str_int (status_code response)).
Proof.
  intros url. unfold _create_maintenance, f_try, f_bind, post. fold url.
  destruct (requests_post env url payload) as [exc|response] eqn:Hpost.
  - do 2 eexists. split; [reflexivity |]. split; [| done].
    split; [done |]. by intros (? & ? & _).
  - case_bool_decide as Hstatus.
    + do 2 eexists. split; [reflexivity |]. split.
      * split; [| done]. intros _. by exists response.
      * by intros ? [= <-] ?.
    + do 2 eexists. split; [reflexivity |]. split.
      * split; [done |]. by intros (? & [= <-] & ?).
      * by intros ? [= <-] _.
Qed.

End FetcherFacts.
End FrontendFacts.

(** ** The pages reach the services *)

Section PagesReachServices.
Context `{JsonCodec} {J P : Type} (env : Frontend.Env J P).
Import Frontend FrontendFacts.

(** A path under a service name is forwarded to that service. *)
Lemma forwarded_under name base rest w request :
  SERVICE_URLS !! name = Some base →
  Request.path request = "/" +:+ name +:+ "/" +:+ rest →
  ∃ call,
    snd (handle w request) = [ClientRequest call]
    ∧ Call.url call = base +:+ Request.path request.
Proof.
  intros Hbase Hpath.
  destruct (SERVICE_URLS_key_plain name) as [Hne Hplain]; [by eexists |].
  assert (first_segment (Request.path request) = Some name) as Hseg.
  { rewrite Hpath. apply first_segment_prefixed; [done | done |].
    right. exact (prefix_app "/" rest). }
  destruct (handle_in_scope _ _ _ w Hseg Hbase) as (host & _ & ->).
  by eexists.
Qed.

(** The fetchers of one service's page. *)
Ltac under name base rest :=
  exists ("/" +:+ name +:+ "/" +:+ rest), name, base;
  split; [reflexivity |]; split; [reflexivity |];
  split; [exact (prefix_app ("/" +:+ name +:+ "/") rest) |];
  intros w request Hpath; rewrite <- Hpath;
  by apply (forwarded_under name base rest).

(** X17. The address every fetcher asks for is the gateway's address
    followed by a path under a service name, and the gateway forwards
    every request with that path to that service, at the same path. *)
Theorem fetchers_ask_routed_paths equipment_id maintenance_id provider_id
    (run : F P J) url timeout l message fallback :
  (run, (url, timeout, l, message, fallback))
    ∈ catalogue env equipment_id maintenance_id provider_id →
  ∃ path name base,
    url = fmt_env (BASE_URL env) +:+ path
    ∧ SERVICE_URLS !! name = Some base
    ∧ String.prefix ("/" +:+ name +:+ "/") path = true
    ∧ ∀ w request,
        Request.path request = path →
        ∃ call,
          snd (handle w request) = [ClientRequest call]
          ∧ Call.url call = base +:+ path.
Proof.
  unfold catalogue. rewrite !elem_of_cons, elem_of_nil.
  intros [Hin|[Hin|[Hin|[Hin|[Hin|[Hin|[Hin|[Hin|[Hin|[Hin|[]]]]]]]]]]];
    apply entry_eq in Hin as (_ & -> & _).
  - under "equipment" "http://equipment-service:8001" "".
  - under "equipment" "http://equipment-service:8001" (str_int equipment_id).
  - under "equipment" "http://equipment-service:8001"
      (str_int equipment_id +:+ "/movements/").
  - under "equipment" "http://equipment-service:8001"
      (str_int equipment_id +:+ "/purchases/").
  - under "equipment" "http://equipment-service:8001" "locations/".
  - under "maintenance" "http://maintenance-service:8003" "".
  - under "maintenance" "http://maintenance-service:8003"
      (str_int maintenance_id +:+ "/spare-parts/").
  - under "providers" "http://provider-service:8002" "".
  - under "providers" "http://provider-service:8002" (str_int provider_id +:+ "/contracts").
  - under "providers" "http://provider-service:8002" (str_int provider_id +:+ "/purchases").
Qed.

End PagesReachServices.

(** ** More scenarios *)

Module MoreScenarios.
Import MiniJson Scenario.

(** The client fails before anything is sent. *)
Definition equipment_invalid : World :=
  {| call_next := local_app;
     client_request := λ _, Raise (OtherException "httpx.InvalidURL") |}.

(** The equipment service answers 404 with a problem document. *)
Definition equipment_missing : Backend.t :=
  Backend.make 404 (<["content-type" := "application/problem+json"]> ∅)
    (text "{'detail':'Equipment not found'}").

Definition equipment_not_found : World :=
  {| call_next := local_app; client_request := λ _, Ok equipment_missing |}.

Definition not_found : value := Object [("detail", Str "Equipment not found")].

(** [PUT /providers/3] *)
Definition put_provider_3 : Request.t :=
  Request.make "PUT" "/providers/3" (<["host" := "gateway.example:8000"]> ∅) []
    (String.list_byte_of_string "{}").

(** The libraries of the pages, with the gateway at [api-gateway:8000]. *)
Definition decode (b : bytes) : string + value :=
  match MiniJson.loads b with
  | Some v => inr v
  | None => inl "Expecting value"
  end.

Definition pages (get : string + Frontend.HttpResponse) : Frontend.Env value unit :=
  {| Frontend.BASE_URL := Some "http://api-gateway:8000";
     Frontend.requests_get := λ _ _, get;
     Frontend.requests_post := λ _ _, inl "Connection refused";
     Frontend.HTTPError := λ r, str_int (Frontend.status_code r) +:+ " Server Error";
     Frontend.json_of := decode;
     Frontend.empty_list := Array [];
     Frontend.none := Null |}.

(** The gateway answers 503. *)
Definition unavailable : Frontend.HttpResponse :=
  {| Frontend.status_code := 503; Frontend.content := [] |}.

(** The gateway answers 200 with one equipment. *)
Definition one_equipment : Frontend.HttpResponse :=
  {| Frontend.status_code := 200; Frontend.content := text "[{'id_equipo':42}]" |}.

End MoreScenarios.
Import MoreScenarios.

Lemma prefix_routing_witness :
  ∃ call,
    snd (handle equipment_up put_provider_3) = [ClientRequest call]
    ∧ Call.url call = "http://provider-service:8002" +:+ "/" +:+ "providers" +:+ "/3".
Proof.
  apply (prefix_routing (H:=mini_json) equipment_up put_provider_3 "providers"
           "http://provider-service:8002" "/3");
    [evaluate | right; evaluate | evaluate].
Defined.

Lemma other_errors_propagate_witness :
  fst (handle equipment_invalid get_equipment_42) = Raise (OtherException "httpx.InvalidURL").
Proof.
  apply (other_errors_propagate (H:=mini_json) equipment_invalid get_equipment_42
           "equipment" "http://equipment-service:8001" equipment_call);
    [evaluate | evaluate | evaluate | evaluate | discriminate].
Defined.

Lemma answered_call_is_relayed_witness :
  (fst (handle equipment_not_found get_equipment_42) = Raise JSONDecodeError
   ∨ fst (handle equipment_not_found get_equipment_42) = Raise ValueError
   ∨ ∃ out, fst (handle equipment_not_found get_equipment_42) = Ok out
            ∧ Response.status_code out = Backend.status_code equipment_missing)
  ∧ (∀ status detail,
       fst (handle equipment_not_found get_equipment_42)
       ≠ Raise (HTTPException status detail)).
Proof.
  apply (answered_call_is_relayed (H:=mini_json) equipment_not_found get_equipment_42
           "equipment" "http://equipment-service:8001" equipment_call equipment_missing);
    evaluate.
Defined.

Lemma json_keeps_content_type_witness :
  (∀ out,
     fst (handle equipment_not_found get_equipment_42) = Ok out →
     Response.media_type out = "application/json"
     ∧ Response.headers out !! "content-type" = Some (declared_content_type equipment_missing)
     ∧ sent_content_type out = declared_content_type equipment_missing)
  ∧ (∀ body,
       dumps not_found = Some body →
       ∃ out,
         fst (handle equipment_not_found get_equipment_42) = Ok out
         ∧ Response.body out = body
         ∧ Response.media_type out = "application/json"
         ∧ Response.headers out !! "content-type"
           = Some (declared_content_type equipment_missing)
         ∧ sent_content_type out = declared_content_type equipment_missing).
Proof.
  apply (json_keeps_content_type (H:=mini_json) equipment_not_found get_equipment_42
           "equipment" "http://equipment-service:8001" equipment_call equipment_missing
           not_found);
    evaluate.
Defined.

Lemma host_header_general_witness :
  Call.headers equipment_call !! "host"
  = Some ("equipment-service:8001" +:+ before "/" (Request.path get_equipment_42))
  ∧ (String.prefix "/" (Request.path get_equipment_42) = false →
     Call.headers equipment_call !! "host" = Some ("equipment-service:8001" +:+ "equipment")).
Proof.
  apply (host_header_general (H:=mini_json) equipment_up get_equipment_42 "equipment"
           "equipment-service:8001" equipment_call);
    evaluate.
Defined.

Lemma fetchers_contract_witness :
  (∃ data,
     Frontend._fetch_equipment_detail (pages (inr unavailable)) 42 []
     = (inr data, [Frontend.Get "http://api-gateway:8000/equipment/42" (Some 10)]))
  ∨ (∃ exc,
       Frontend._fetch_equipment_detail (pages (inr unavailable)) 42 []
       = (inr MiniJson.Null,
          [Frontend.Get "http://api-gateway:8000/equipment/42" (Some 10);
           Frontend.Show Frontend.Error
             (("No se pudo cargar el detalle del equipo #" +:+ str_int 42 +:+ ": ")
              +:+ exc)])).
Proof.
  apply (FrontendFacts.fetchers_contract (pages (inr unavailable)) 42 7 3
           (Frontend._fetch_equipment_detail (pages (inr unavailable)) 42)).
  unfold FrontendFacts.catalogue. right. left.
Defined.

Lemma fetchers_fall_back_on_error_status_witness :
  Frontend._fetch_equipment (pages (inr unavailable)) []
  = (inr (MiniJson.Array []),
     [Frontend.Get "http://api-gateway:8000/equipment/" (Some 10);
      Frontend.Show Frontend.Error
        ("No se pudieron cargar los equipos: "
         +:+ Frontend.HTTPError (pages (inr unavailable)) unavailable)]).
Proof.
  apply (FrontendFacts.fetchers_fall_back_on_error_status (pages (inr unavailable)) 42 7 3
           (Frontend._fetch_equipment (pages (inr unavailable))));
    [unfold FrontendFacts.catalogue; left | reflexivity | cbn; lia].
Defined.

Lemma fetchers_fall_back_on_exception_witness :
  Frontend._fetch_maintenance (pages (inl "Connection refused")) []
  = (inr (MiniJson.Array []),
     [Frontend.Get "http://api-gateway:8000/maintenance/" None;
      Frontend.Show Frontend.Error
        ("No se pudieron cargar los mantenimientos: " +:+ "Connection refused")]).
Proof.
  apply (FrontendFacts.fetchers_fall_back_on_exception
           (pages (inl "Connection refused")) 42 7 3
           (Frontend._fetch_maintenance (pages (inl "Connection refused"))));
    [unfold FrontendFacts.catalogue; do 5 right; left | by left].
Defined.

Lemma fetchers_return_decoded_answer_witness :
  Frontend._fetch_equipment (pages (inr one_equipment)) []
  = (inr (MiniJson.Array [MiniJson.Object [("id_equipo", MiniJson.Int 42)]]),
     [Frontend.Get "http://api-gateway:8000/equipment/" (Some 10)]).
Proof.
  apply (FrontendFacts.fetchers_return_decoded_answer (pages (inr one_equipment)) 42 7 3
           (Frontend._fetch_equipment (pages (inr one_equipment)))
           _ _ Frontend.Error "No se pudieron cargar los equipos: " (MiniJson.Array [])
           one_equipment);
    [unfold FrontendFacts.catalogue; left | reflexivity | left; cbn; lia
    | vm_compute; reflexivity].
Defined.

Lemma fetchers_ask_routed_paths_witness :
  ∃ path name base,
    "http://api-gateway:8000/equipment/42/movements/"
    = fmt_env (Frontend.BASE_URL (pages (inr one_equipment))) +:+ path
    ∧ SERVICE_URLS !! name = Some base
    ∧ String.prefix ("/" +:+ name +:+ "/") path = true
    ∧ ∀ w request,
        Request.path request = path →
        ∃ call,
          snd (handle w request) = [ClientRequest call]
          ∧ Call.url call = base +:+ path.
Proof.
  apply (fetchers_ask_routed_paths (H:=mini_json) (pages (inr one_equipment)) 42 7 3
           (Frontend._fetch_equipment_movements (pages (inr one_equipment)) 42)
           _ (Some 10) Frontend.Warning
           "No se pudo cargar el historial de movimientos: " (MiniJson.Array [])).
  unfold FrontendFacts.catalogue. do 2 right. left.
Defined.
